(** * Reflector: a planar mirror for three.js scenes

    A shallow embedding of [src/js/Reflector.js].  The file has four layers.

    - The part of three.js that [Reflector.js] calls ([Vector3], [Vector4],
      [Matrix3], [Matrix4], [Quaternion], [Plane], [Object3D]/[Camera]) is
      transcribed method by method; of [WebGLRenderer] the file keeps the
      state that the mirror reads and writes, and a record of each call of
      [render].  JavaScript numbers are IEEE 754 binary64 values, and so are
      Rocq's primitive floats: the arithmetic below is the arithmetic the
      program runs.
    - [Reflector.constructor], [Reflector.onBeforeRender] and
      [Reflector.dispose] follow the source statement by statement, with the
      state they mutate (the closure's scratch objects, the virtual camera,
      the host renderer) passed explicitly.  In [Reflector.onBeforeRender]
      the two calls of [renderer.render] are recorded and call nothing back:
      it is the frame as the statements of the method alone make it.
    - [Loop.onBeforeRender] is the same method inside the render loop of
      three.js: a render traverses the scene and, before it draws a visible
      mirror, calls the mirror's [onBeforeRender] with the camera of that
      render.  The source leaves the mirror visible during its own offscreen
      render, so the method is entered again from there, on a call stack
      that is finite.  The last part of the file relates the two.
    - [Shader.blendOverlay] is the GLSL helper of the fragment shader, over
      the floating-point numbers of a binary format, with every operation
      rounded as IEEE 754 rounds it. *)

From Stdlib Require Import Floats ZArith Lia List.
From stdpp Require Import base gmap strings list.

Set Warnings "-inexact-float,-clear-no-such-hyp".

(** ** JavaScript numbers *)

Module Math.
Local Open Scope float_scope.

(** [Math.sign]: 1 or -1 for a number above or below zero; a zero of either
    sign and NaN are returned as they are. *)
Definition sign (v : float) : float :=
  if 0 <? v then 1 else if v <? 0 then -1 else v.

Definition sqrt (v : float) : float := PrimFloat.sqrt v.

Definition abs (v : float) : float := PrimFloat.abs v.

(** The numbers that [||] and [if] treat as false: both zeros and NaN. *)
Definition falsy (v : float) : bool := (v =? 0) || is_nan v.

(** [a || b] on numbers. *)
Definition or_else (a b : float) : float := if falsy a then b else a.
End Math.

(** ** three.js math classes *)

Module Vector3.
Local Open Scope float_scope.

Record t := mk { x : float; y : float; z : float }.

Definition set (x y z : float) : t := mk x y z.

Definition add (a v : t) : t := mk (x a + x v) (y a + y v) (z a + z v).

Definition sub (a v : t) : t := mk (x a - x v) (y a - y v) (z a - z v).

Definition subVectors (a b : t) : t := mk (x a - x b) (y a - y b) (z a - z b).

Definition multiplyScalar (a : t) (s : float) : t :=
  mk (x a * s) (y a * s) (z a * s).

Definition divideScalar (a : t) (s : float) : t := multiplyScalar a (1 / s).

Definition negate (a : t) : t := mk (- x a) (- y a) (- z a).

Definition dot (a v : t) : float := x a * x v + y a * y v + z a * z v.

Definition lengthSq (a : t) : float := x a * x a + y a * y a + z a * z a.

Definition length (a : t) : float :=
  Math.sqrt (x a * x a + y a * y a + z a * z a).

(** [divideScalar( this.length() || 1 )] *)
Definition normalize (a : t) : t := divideScalar a (Math.or_else (length a) 1).

Definition crossVectors (a b : t) : t :=
  mk (y a * z b - z a * y b) (z a * x b - x a * z b) (x a * y b - y a * x b).

(** [this.sub( normal * ( 2 * this.dot( normal ) ) )]: the incident vector
    mirrored off the plane orthogonal to [normal]. *)
Definition reflect (a normal : t) : t :=
  sub a (multiplyScalar normal (2 * dot a normal)).
End Vector3.

Module Vector4.
Local Open Scope float_scope.

Record t := mk { x : float; y : float; z : float; w : float }.

Definition set (x y z w : float) : t := mk x y z w.

Definition dot (a v : t) : float :=
  x a * x v + y a * y v + z a * z v + w a * w v.

Definition multiplyScalar (a : t) (s : float) : t :=
  mk (x a * s) (y a * s) (z a * s) (w a * s).
End Vector4.

Module Quaternion.
(** [_x], [_y], [_z], [_w]. *)
Record t := mk { x : float; y : float; z : float; w : float }.
End Quaternion.

Module Matrix3.
Local Open Scope float_scope.

(** The nine [elements], column by column. *)
Record t := mk {
  e0 : float; e1 : float; e2 : float;
  e3 : float; e4 : float; e5 : float;
  e6 : float; e7 : float; e8 : float }.

(** [set] takes its arguments row by row. *)
Definition set (n11 n12 n13 n21 n22 n23 n31 n32 n33 : float) : t :=
  mk n11 n21 n31 n12 n22 n32 n13 n23 n33.

Definition invert (m : t) : t :=
  let n11 := e0 m in let n21 := e1 m in let n31 := e2 m in
  let n12 := e3 m in let n22 := e4 m in let n32 := e5 m in
  let n13 := e6 m in let n23 := e7 m in let n33 := e8 m in
  let t11 := n33 * n22 - n32 * n23 in
  let t12 := n32 * n13 - n33 * n12 in
  let t13 := n23 * n12 - n22 * n13 in
  let det := n11 * t11 + n21 * t12 + n31 * t13 in
  if det =? 0 then set 0 0 0 0 0 0 0 0 0 else
  let detInv := 1 / det in
  mk (t11 * detInv)
     ((n31 * n23 - n33 * n21) * detInv)
     ((n32 * n21 - n31 * n22) * detInv)
     (t12 * detInv)
     ((n33 * n11 - n31 * n13) * detInv)
     ((n31 * n12 - n32 * n11) * detInv)
     (t13 * detInv)
     ((n21 * n13 - n23 * n11) * detInv)
     ((n22 * n11 - n21 * n12) * detInv).

Definition transpose (m : t) : t :=
  mk (e0 m) (e3 m) (e6 m) (e1 m) (e4 m) (e7 m) (e2 m) (e5 m) (e8 m).

Definition applyToVector3 (v : Vector3.t) (m : t) : Vector3.t :=
  let x := Vector3.x v in let y := Vector3.y v in let z := Vector3.z v in
  Vector3.mk (e0 m * x + e3 m * y + e6 m * z)
             (e1 m * x + e4 m * y + e7 m * z)
             (e2 m * x + e5 m * y + e8 m * z).
End Matrix3.

Module Matrix4.
Local Open Scope float_scope.

(** The sixteen [elements], column by column: [elements[4 * c + r]] is the
    entry of row [r] and column [c]. *)
Record t := mk {
  e0 : float; e1 : float; e2 : float; e3 : float;
  e4 : float; e5 : float; e6 : float; e7 : float;
  e8 : float; e9 : float; e10 : float; e11 : float;
  e12 : float; e13 : float; e14 : float; e15 : float }.

(** [m.elements[ i ]]; a read past the end is [undefined], NaN in arithmetic. *)
Definition elements (m : t) (i : nat) : float :=
  match i with
  | 0 => e0 m | 1 => e1 m | 2 => e2 m | 3 => e3 m
  | 4 => e4 m | 5 => e5 m | 6 => e6 m | 7 => e7 m
  | 8 => e8 m | 9 => e9 m | 10 => e10 m | 11 => e11 m
  | 12 => e12 m | 13 => e13 m | 14 => e14 m | 15 => e15 m
  | _ => nan
  end%nat.

(** [set] takes its arguments row by row. *)
Definition set (n11 n12 n13 n14 n21 n22 n23 n24
                n31 n32 n33 n34 n41 n42 n43 n44 : float) : t :=
  mk n11 n21 n31 n41 n12 n22 n32 n42 n13 n23 n33 n43 n14 n24 n34 n44.

Definition identity : t := set 1 0 0 0  0 1 0 0  0 0 1 0  0 0 0 1.

Definition copy (m : t) : t := m.

(** The column [index] of [m] as a vector ([Vector3.setFromMatrixColumn]). *)
Definition column (m : t) (index : nat) : Vector3.t :=
  Vector3.mk (elements m (index * 4)) (elements m (index * 4 + 1))
             (elements m (index * 4 + 2)).

(** [Vector3.setFromMatrixPosition]. *)
Definition position (m : t) : Vector3.t :=
  Vector3.mk (elements m 12) (elements m 13) (elements m 14).

Definition extractRotation (m : t) : t :=
  let me := elements m in
  let scaleX := 1 / Vector3.length (column m 0) in
  let scaleY := 1 / Vector3.length (column m 1) in
  let scaleZ := 1 / Vector3.length (column m 2) in
  mk (me 0%nat * scaleX) (me 1%nat * scaleX) (me 2%nat * scaleX) 0
     (me 4%nat * scaleY) (me 5%nat * scaleY) (me 6%nat * scaleY) 0
     (me 8%nat * scaleZ) (me 9%nat * scaleZ) (me 10%nat * scaleZ) 0
     0 0 0 1.

Definition multiplyMatrices (a b : t) : t :=
  let ae := elements a in let be := elements b in
  let a11 := ae 0%nat in let a12 := ae 4%nat in
  let a13 := ae 8%nat in let a14 := ae 12%nat in
  let a21 := ae 1%nat in let a22 := ae 5%nat in
  let a23 := ae 9%nat in let a24 := ae 13%nat in
  let a31 := ae 2%nat in let a32 := ae 6%nat in
  let a33 := ae 10%nat in let a34 := ae 14%nat in
  let a41 := ae 3%nat in let a42 := ae 7%nat in
  let a43 := ae 11%nat in let a44 := ae 15%nat in
  let b11 := be 0%nat in let b12 := be 4%nat in
  let b13 := be 8%nat in let b14 := be 12%nat in
  let b21 := be 1%nat in let b22 := be 5%nat in
  let b23 := be 9%nat in let b24 := be 13%nat in
  let b31 := be 2%nat in let b32 := be 6%nat in
  let b33 := be 10%nat in let b34 := be 14%nat in
  let b41 := be 3%nat in let b42 := be 7%nat in
  let b43 := be 11%nat in let b44 := be 15%nat in
  set (a11 * b11 + a12 * b21 + a13 * b31 + a14 * b41)
      (a11 * b12 + a12 * b22 + a13 * b32 + a14 * b42)
      (a11 * b13 + a12 * b23 + a13 * b33 + a14 * b43)
      (a11 * b14 + a12 * b24 + a13 * b34 + a14 * b44)
      (a21 * b11 + a22 * b21 + a23 * b31 + a24 * b41)
      (a21 * b12 + a22 * b22 + a23 * b32 + a24 * b42)
      (a21 * b13 + a22 * b23 + a23 * b33 + a24 * b43)
      (a21 * b14 + a22 * b24 + a23 * b34 + a24 * b44)
      (a31 * b11 + a32 * b21 + a33 * b31 + a34 * b41)
      (a31 * b12 + a32 * b22 + a33 * b32 + a34 * b42)
      (a31 * b13 + a32 * b23 + a33 * b33 + a34 * b43)
      (a31 * b14 + a32 * b24 + a33 * b34 + a34 * b44)
      (a41 * b11 + a42 * b21 + a43 * b31 + a44 * b41)
      (a41 * b12 + a42 * b22 + a43 * b32 + a44 * b42)
      (a41 * b13 + a42 * b23 + a43 * b33 + a44 * b43)
      (a41 * b14 + a42 * b24 + a43 * b34 + a44 * b44).

(** [this.multiply( m )] is [multiplyMatrices( this, m )]. *)
Definition multiply (this m : t) : t := multiplyMatrices this m.

(** [m.elements[ i ] = v] for an index of the array. *)
Definition setElement (m : t) (i : nat) (v : float) : t :=
  match i with
  | 0 => mk v (e1 m) (e2 m) (e3 m) (e4 m) (e5 m) (e6 m) (e7 m)
            (e8 m) (e9 m) (e10 m) (e11 m) (e12 m) (e13 m) (e14 m) (e15 m)
  | 1 => mk (e0 m) v (e2 m) (e3 m) (e4 m) (e5 m) (e6 m) (e7 m)
            (e8 m) (e9 m) (e10 m) (e11 m) (e12 m) (e13 m) (e14 m) (e15 m)
  | 2 => mk (e0 m) (e1 m) v (e3 m) (e4 m) (e5 m) (e6 m) (e7 m)
            (e8 m) (e9 m) (e10 m) (e11 m) (e12 m) (e13 m) (e14 m) (e15 m)
  | 3 => mk (e0 m) (e1 m) (e2 m) v (e4 m) (e5 m) (e6 m) (e7 m)
            (e8 m) (e9 m) (e10 m) (e11 m) (e12 m) (e13 m) (e14 m) (e15 m)
  | 4 => mk (e0 m) (e1 m) (e2 m) (e3 m) v (e5 m) (e6 m) (e7 m)
            (e8 m) (e9 m) (e10 m) (e11 m) (e12 m) (e13 m) (e14 m) (e15 m)
  | 5 => mk (e0 m) (e1 m) (e2 m) (e3 m) (e4 m) v (e6 m) (e7 m)
            (e8 m) (e9 m) (e10 m) (e11 m) (e12 m) (e13 m) (e14 m) (e15 m)
  | 6 => mk (e0 m) (e1 m) (e2 m) (e3 m) (e4 m) (e5 m) v (e7 m)
            (e8 m) (e9 m) (e10 m) (e11 m) (e12 m) (e13 m) (e14 m) (e15 m)
  | 7 => mk (e0 m) (e1 m) (e2 m) (e3 m) (e4 m) (e5 m) (e6 m) v
            (e8 m) (e9 m) (e10 m) (e11 m) (e12 m) (e13 m) (e14 m) (e15 m)
  | 8 => mk (e0 m) (e1 m) (e2 m) (e3 m) (e4 m) (e5 m) (e6 m) (e7 m)
            v (e9 m) (e10 m) (e11 m) (e12 m) (e13 m) (e14 m) (e15 m)
  | 9 => mk (e0 m) (e1 m) (e2 m) (e3 m) (e4 m) (e5 m) (e6 m) (e7 m)
            (e8 m) v (e10 m) (e11 m) (e12 m) (e13 m) (e14 m) (e15 m)
  | 10 => mk (e0 m) (e1 m) (e2 m) (e3 m) (e4 m) (e5 m) (e6 m) (e7 m)
            (e8 m) (e9 m) v (e11 m) (e12 m) (e13 m) (e14 m) (e15 m)
  | 11 => mk (e0 m) (e1 m) (e2 m) (e3 m) (e4 m) (e5 m) (e6 m) (e7 m)
            (e8 m) (e9 m) (e10 m) v (e12 m) (e13 m) (e14 m) (e15 m)
  | 12 => mk (e0 m) (e1 m) (e2 m) (e3 m) (e4 m) (e5 m) (e6 m) (e7 m)
            (e8 m) (e9 m) (e10 m) (e11 m) v (e13 m) (e14 m) (e15 m)
  | 13 => mk (e0 m) (e1 m) (e2 m) (e3 m) (e4 m) (e5 m) (e6 m) (e7 m)
            (e8 m) (e9 m) (e10 m) (e11 m) (e12 m) v (e14 m) (e15 m)
  | 14 => mk (e0 m) (e1 m) (e2 m) (e3 m) (e4 m) (e5 m) (e6 m) (e7 m)
            (e8 m) (e9 m) (e10 m) (e11 m) (e12 m) (e13 m) v (e15 m)
  | 15 => mk (e0 m) (e1 m) (e2 m) (e3 m) (e4 m) (e5 m) (e6 m) (e7 m)
            (e8 m) (e9 m) (e10 m) (e11 m) (e12 m) (e13 m) (e14 m) v
  | _ => m
  end%nat.

(** [Vector3.applyMatrix4]: the point [v] transformed by [m], with the
    perspective divide. *)
Definition applyToVector3 (v : Vector3.t) (m : t) : Vector3.t :=
  let x := Vector3.x v in let y := Vector3.y v in let z := Vector3.z v in
  let e := elements m in
  let w := 1 / (e 3%nat * x + e 7%nat * y + e 11%nat * z + e 15%nat) in
  Vector3.mk ((e 0%nat * x + e 4%nat * y + e 8%nat * z + e 12%nat) * w)
             ((e 1%nat * x + e 5%nat * y + e 9%nat * z + e 13%nat) * w)
             ((e 2%nat * x + e 6%nat * y + e 10%nat * z + e 14%nat) * w).

(** [this.lookAt( eye, target, up )] writes the rotation part of [this] and
    leaves the other seven elements as they are. *)
Definition lookAt (this : t) (eye target up : Vector3.t) : t :=
  let _z := Vector3.subVectors eye target in
  let _z := if Vector3.lengthSq _z =? 0
            then Vector3.mk (Vector3.x _z) (Vector3.y _z) 1 else _z in
  let _z := Vector3.normalize _z in
  let _x := Vector3.crossVectors up _z in
  let '(_z, _x) :=
    if Vector3.lengthSq _x =? 0 then
      let _z := if Math.abs (Vector3.z up) =? 1
                then Vector3.mk (Vector3.x _z + 0.0001) (Vector3.y _z) (Vector3.z _z)
                else Vector3.mk (Vector3.x _z) (Vector3.y _z) (Vector3.z _z + 0.0001) in
      let _z := Vector3.normalize _z in
      (_z, Vector3.crossVectors up _z)
    else (_z, _x) in
  let _x := Vector3.normalize _x in
  let _y := Vector3.crossVectors _z _x in
  mk (Vector3.x _x) (Vector3.y _x) (Vector3.z _x) (e3 this)
     (Vector3.x _y) (Vector3.y _y) (Vector3.z _y) (e7 this)
     (Vector3.x _z) (Vector3.y _z) (Vector3.z _z) (e11 this)
     (e12 this) (e13 this) (e14 this) (e15 this).

(** [Quaternion.setFromRotationMatrix( m )]: the rotation of the upper
    3x3 block of [m], assumed to be a pure rotation. *)
Definition toQuaternion (m : t) : Quaternion.t :=
  let m11 := e0 m in let m12 := e4 m in let m13 := e8 m in
  let m21 := e1 m in let m22 := e5 m in let m23 := e9 m in
  let m31 := e2 m in let m32 := e6 m in let m33 := e10 m in
  let trace := m11 + m22 + m33 in
  if 0 <? trace then
    let s := 0.5 / Math.sqrt (trace + 1.0) in
    Quaternion.mk ((m32 - m23) * s) ((m13 - m31) * s) ((m21 - m12) * s) (0.25 / s)
  else if (m22 <? m11) && (m33 <? m11) then
    let s := 2.0 * Math.sqrt (1.0 + m11 - m22 - m33) in
    Quaternion.mk (0.25 * s) ((m12 + m21) / s) ((m13 + m31) / s) ((m32 - m23) / s)
  else if m33 <? m22 then
    let s := 2.0 * Math.sqrt (1.0 + m22 - m11 - m33) in
    Quaternion.mk ((m12 + m21) / s) (0.25 * s) ((m23 + m32) / s) ((m13 - m31) / s)
  else
    let s := 2.0 * Math.sqrt (1.0 + m33 - m11 - m22) in
    Quaternion.mk ((m13 + m31) / s) ((m23 + m32) / s) (0.25 * s) ((m21 - m12) / s).

Definition compose (position : Vector3.t) (quaternion : Quaternion.t)
                   (scale : Vector3.t) : t :=
  let x := Quaternion.x quaternion in let y := Quaternion.y quaternion in
  let z := Quaternion.z quaternion in let w := Quaternion.w quaternion in
  let x2 := x + x in let y2 := y + y in let z2 := z + z in
  let xx := x * x2 in let xy := x * y2 in let xz := x * z2 in
  let yy := y * y2 in let yz := y * z2 in let zz := z * z2 in
  let wx := w * x2 in let wy := w * y2 in let wz := w * z2 in
  let sx := Vector3.x scale in let sy := Vector3.y scale in
  let sz := Vector3.z scale in
  mk ((1 - (yy + zz)) * sx) ((xy + wz) * sx) ((xz - wy) * sx) 0
     ((xy - wz) * sy) ((1 - (xx + zz)) * sy) ((yz + wx) * sy) 0
     ((xz + wy) * sz) ((yz - wx) * sz) ((1 - (xx + yy)) * sz) 0
     (Vector3.x position) (Vector3.y position) (Vector3.z position) 1.

Definition invert (m : t) : t :=
  let n11 := e0 m in let n21 := e1 m in let n31 := e2 m in let n41 := e3 m in
  let n12 := e4 m in let n22 := e5 m in let n32 := e6 m in let n42 := e7 m in
  let n13 := e8 m in let n23 := e9 m in let n33 := e10 m in let n43 := e11 m in
  let n14 := e12 m in let n24 := e13 m in let n34 := e14 m in let n44 := e15 m in
  let t11 := n23 * n34 * n42 - n24 * n33 * n42 + n24 * n32 * n43
             - n22 * n34 * n43 - n23 * n32 * n44 + n22 * n33 * n44 in
  let t12 := n14 * n33 * n42 - n13 * n34 * n42 - n14 * n32 * n43
             + n12 * n34 * n43 + n13 * n32 * n44 - n12 * n33 * n44 in
  let t13 := n13 * n24 * n42 - n14 * n23 * n42 + n14 * n22 * n43
             - n12 * n24 * n43 - n13 * n22 * n44 + n12 * n23 * n44 in
  let t14 := n14 * n23 * n32 - n13 * n24 * n32 - n14 * n22 * n33
             + n12 * n24 * n33 + n13 * n22 * n34 - n12 * n23 * n34 in
  let det := n11 * t11 + n21 * t12 + n31 * t13 + n41 * t14 in
  if det =? 0 then set 0 0 0 0  0 0 0 0  0 0 0 0  0 0 0 0 else
  let detInv := 1 / det in
  mk (t11 * detInv)
     ((n24 * n33 * n41 - n23 * n34 * n41 - n24 * n31 * n43
       + n21 * n34 * n43 + n23 * n31 * n44 - n21 * n33 * n44) * detInv)
     ((n22 * n34 * n41 - n24 * n32 * n41 + n24 * n31 * n42
       - n21 * n34 * n42 - n22 * n31 * n44 + n21 * n32 * n44) * detInv)
     ((n23 * n32 * n41 - n22 * n33 * n41 - n23 * n31 * n42
       + n21 * n33 * n42 + n22 * n31 * n43 - n21 * n32 * n43) * detInv)
     (t12 * detInv)
     ((n13 * n34 * n41 - n14 * n33 * n41 + n14 * n31 * n43
       - n11 * n34 * n43 - n13 * n31 * n44 + n11 * n33 * n44) * detInv)
     ((n14 * n32 * n41 - n12 * n34 * n41 - n14 * n31 * n42
       + n11 * n34 * n42 + n12 * n31 * n44 - n11 * n32 * n44) * detInv)
     ((n12 * n33 * n41 - n13 * n32 * n41 + n13 * n31 * n42
       - n11 * n33 * n42 - n12 * n31 * n43 + n11 * n32 * n43) * detInv)
     (t13 * detInv)
     ((n14 * n23 * n41 - n13 * n24 * n41 - n14 * n21 * n43
       + n11 * n24 * n43 + n13 * n21 * n44 - n11 * n23 * n44) * detInv)
     ((n12 * n24 * n41 - n14 * n22 * n41 + n14 * n21 * n42
       - n11 * n24 * n42 - n12 * n21 * n44 + n11 * n22 * n44) * detInv)
     ((n13 * n22 * n41 - n12 * n23 * n41 - n13 * n21 * n42
       + n11 * n23 * n42 + n12 * n21 * n43 - n11 * n22 * n43) * detInv)
     (t14 * detInv)
     ((n13 * n24 * n31 - n14 * n23 * n31 + n14 * n21 * n33
       - n11 * n24 * n33 - n13 * n21 * n34 + n11 * n23 * n34) * detInv)
     ((n14 * n22 * n31 - n12 * n24 * n31 - n14 * n21 * n32
       + n11 * n24 * n32 + n12 * n21 * n34 - n11 * n22 * n34) * detInv)
     ((n12 * n23 * n31 - n13 * n22 * n31 + n13 * n21 * n32
       - n11 * n23 * n32 - n12 * n21 * n33 + n11 * n22 * n33) * detInv).

(** [Matrix3.setFromMatrix4]: the upper 3x3 block. *)
Definition toMatrix3 (m : t) : Matrix3.t :=
  Matrix3.set (e0 m) (e4 m) (e8 m) (e1 m) (e5 m) (e9 m) (e2 m) (e6 m) (e10 m).

(** [Matrix3.getNormalMatrix( m )]. *)
Definition normalMatrix (m : t) : Matrix3.t :=
  Matrix3.transpose (Matrix3.invert (toMatrix3 m)).
End Matrix4.

Module Plane.
Local Open Scope float_scope.

Record t := mk { normal : Vector3.t; constant : float }.

Definition setFromNormalAndCoplanarPoint (normal point : Vector3.t) : t :=
  mk normal (- Vector3.dot point normal).

Definition coplanarPoint (p : t) : Vector3.t :=
  Vector3.multiplyScalar (normal p) (- constant p).

(** [applyMatrix4( matrix )] with no [optionalNormalMatrix]. *)
Definition applyMatrix4 (p : t) (matrix : Matrix4.t) : t :=
  let normalMatrix := Matrix4.normalMatrix matrix in
  let referencePoint := Matrix4.applyToVector3 (coplanarPoint p) matrix in
  let normal := Vector3.normalize (Matrix3.applyToVector3 (normal p) normalMatrix) in
  mk normal (- Vector3.dot referencePoint normal).
End Plane.

(** ** Scene graph and renderer *)

(** A scene, by its [id]. *)
Definition Scene := nat.

Module PerspectiveCamera.
(** The fields of an [Object3D] that is a [Camera], for a camera with no
    parent and with [matrixAutoUpdate] and [matrixWorldAutoUpdate] left at
    [true], as [new PerspectiveCamera()] makes them. *)
Record t := mk {
  id : nat;
  position : Vector3.t;
  up : Vector3.t;
  quaternion : Quaternion.t;
  scale : Vector3.t;
  matrix : Matrix4.t;
  matrixWorld : Matrix4.t;
  matrixWorldInverse : Matrix4.t;
  projectionMatrix : Matrix4.t;
  far : float }.

Definition set_position (c : t) (v : Vector3.t) : t :=
  mk (id c) v (up c) (quaternion c) (scale c) (matrix c) (matrixWorld c)
     (matrixWorldInverse c) (projectionMatrix c) (far c).

Definition set_up (c : t) (v : Vector3.t) : t :=
  mk (id c) (position c) v (quaternion c) (scale c) (matrix c) (matrixWorld c)
     (matrixWorldInverse c) (projectionMatrix c) (far c).

Definition set_quaternion (c : t) (q : Quaternion.t) : t :=
  mk (id c) (position c) (up c) q (scale c) (matrix c) (matrixWorld c)
     (matrixWorldInverse c) (projectionMatrix c) (far c).

Definition set_matrix (c : t) (m : Matrix4.t) : t :=
  mk (id c) (position c) (up c) (quaternion c) (scale c) m (matrixWorld c)
     (matrixWorldInverse c) (projectionMatrix c) (far c).

Definition set_matrixWorld (c : t) (m : Matrix4.t) : t :=
  mk (id c) (position c) (up c) (quaternion c) (scale c) (matrix c) m
     (matrixWorldInverse c) (projectionMatrix c) (far c).

Definition set_matrixWorldInverse (c : t) (m : Matrix4.t) : t :=
  mk (id c) (position c) (up c) (quaternion c) (scale c) (matrix c)
     (matrixWorld c) m (projectionMatrix c) (far c).

Definition set_projectionMatrix (c : t) (m : Matrix4.t) : t :=
  mk (id c) (position c) (up c) (quaternion c) (scale c) (matrix c)
     (matrixWorld c) (matrixWorldInverse c) m (far c).

Definition set_far (c : t) (f : float) : t :=
  mk (id c) (position c) (up c) (quaternion c) (scale c) (matrix c)
     (matrixWorld c) (matrixWorldInverse c) (projectionMatrix c) f.

(** [Object3D.updateMatrix]. *)
Definition updateMatrix (c : t) : t :=
  set_matrix c (Matrix4.compose (position c) (quaternion c) (scale c)).

(** [Camera.updateWorldMatrix( true, false )] and [Camera.updateMatrixWorld()]
    do the same to a camera that has neither parent nor children. *)
Definition updateMatrixWorld (c : t) : t :=
  let c := updateMatrix c in
  let c := set_matrixWorld c (Matrix4.copy (matrix c)) in
  set_matrixWorldInverse c (Matrix4.invert (Matrix4.copy (matrixWorld c))).

Definition updateWorldMatrix (c : t) : t := updateMatrixWorld c.

(** [Object3D.lookAt( target )] on a camera: the rotation that looks from the
    camera's world position to [target], stored in [quaternion]. *)
Definition lookAt (c : t) (target : Vector3.t) : t :=
  let c := updateWorldMatrix c in
  let _position := Matrix4.position (matrixWorld c) in
  let _m1 := Matrix4.lookAt Matrix4.identity _position target (up c) in
  set_quaternion c (Matrix4.toQuaternion _m1).
End PerspectiveCamera.

Module EventDispatcher.
(** The listeners of the ['dispose'] event that the renderer registers. *)
Inductive listener :=
| onRenderTargetDispose
| onMaterialDispose.

#[global] Instance listener_eq_dec : EqDecision listener.
Proof. solve_decision. Defined.

(** [object._listeners[ 'dispose' ]] of every object, by the object's [id]; an
    object that was never listened to has no array. *)
Abbreviation store := (gmap nat (list listener)).

(** [listenerArray.splice( listenerArray.indexOf( listener ), 1 )] *)
Fixpoint splice (l : listener) (array : list listener) : list listener :=
  match array with
  | [] => []
  | l' :: array' => if decide (l' = l) then array' else l' :: splice l array'
  end.

Definition addEventListener (s : store) (id : nat) (l : listener) : store :=
  match s !! id with
  | None => <[ id := [ l ] ]> s
  | Some array => if decide (l ∈ array) then s else <[ id := array ++ [ l ] ]> s
  end.

Definition removeEventListener (s : store) (id : nat) (l : listener) : store :=
  match s !! id with
  | None => s
  | Some array => <[ id := splice l array ]> s
  end.
End EventDispatcher.

Module WebGLRenderer.
(** What one call of [renderer.render( scene, camera )] draws from: the
    camera as it is at the call, the bound target ([None] is the canvas), the
    renderer flags in force, and whether the mirror is visible in the scene.
    [WebGLRenderer.render] records the call and no more; what the traversal
    of the scene calls back is in [Loop.render]. *)
Record RenderCall := mkCall {
  call_scene : Scene;
  call_camera : PerspectiveCamera.t;
  call_target : option nat;
  call_xrEnabled : bool;
  call_shadowAutoUpdate : bool;
  call_blending : option nat;
  call_mirrorVisible : bool }.

(** The renderer state the mirror touches.  [renderTargets] and [materials]
    are the objects, by [id], that the renderer holds GPU resources for
    (framebuffer and textures, compiled programs); [listeners] are the
    ['dispose'] listeners on the objects. *)
Record t := mk {
  currentRenderTarget : option nat;
  xr_enabled : bool;
  shadowMap_autoUpdate : bool;
  currentBlending : option nat;
  renderTargets : gset nat;
  materials : gset nat;
  listeners : EventDispatcher.store;
  calls : list RenderCall }.

Definition getRenderTarget (r : t) : option nat := currentRenderTarget r.

(** [textures.setupRenderTarget( renderTarget )]: the renderer listens for the
    target's disposal and allocates its framebuffer and textures. *)
Definition setupRenderTarget (r : t) (id : nat) : t :=
  mk (currentRenderTarget r) (xr_enabled r) (shadowMap_autoUpdate r)
     (currentBlending r) ({[ id ]} ∪ renderTargets r) (materials r)
     (EventDispatcher.addEventListener (listeners r) id
        EventDispatcher.onRenderTargetDispose)
     (calls r).

(** [setRenderTarget( renderTarget )]: a target that has no framebuffer yet
    is set up first. *)
Definition setRenderTarget (r : t) (renderTarget : option nat) : t :=
  let r :=
    match renderTarget with
    | Some id => if decide (id ∈ renderTargets r) then r else setupRenderTarget r id
    | None => r
    end in
  mk renderTarget (xr_enabled r) (shadowMap_autoUpdate r) (currentBlending r)
     (renderTargets r) (materials r) (listeners r) (calls r).

(** The first draw of an object with [material]: the renderer listens for
    the material's disposal and compiles its program.  The host does this
    when it draws the mirror. *)
Definition initMaterial (r : t) (id : nat) : t :=
  if decide (id ∈ materials r) then r else
  mk (currentRenderTarget r) (xr_enabled r) (shadowMap_autoUpdate r)
     (currentBlending r) (renderTargets r) ({[ id ]} ∪ materials r)
     (EventDispatcher.addEventListener (listeners r) id
        EventDispatcher.onMaterialDispose)
     (calls r).

Definition set_xr_enabled (r : t) (b : bool) : t :=
  mk (currentRenderTarget r) b (shadowMap_autoUpdate r) (currentBlending r)
     (renderTargets r) (materials r) (listeners r) (calls r).

Definition set_shadowMap_autoUpdate (r : t) (b : bool) : t :=
  mk (currentRenderTarget r) (xr_enabled r) b (currentBlending r)
     (renderTargets r) (materials r) (listeners r) (calls r).

(** [renderer.state.setBlending( blending )]. *)
Definition state_setBlending (r : t) (blending : nat) : t :=
  mk (currentRenderTarget r) (xr_enabled r) (shadowMap_autoUpdate r)
     (Some blending) (renderTargets r) (materials r) (listeners r) (calls r).

Definition render (r : t) (scene : Scene) (mirrorVisible : bool)
                  (camera : PerspectiveCamera.t) : t :=
  mk (currentRenderTarget r) (xr_enabled r) (shadowMap_autoUpdate r)
     (currentBlending r) (renderTargets r) (materials r) (listeners r)
     (calls r ++ [mkCall scene camera (currentRenderTarget r) (xr_enabled r)
                         (shadowMap_autoUpdate r) (currentBlending r)
                         mirrorVisible]).

Definition set_listeners (r : t) (s : EventDispatcher.store) : t :=
  mk (currentRenderTarget r) (xr_enabled r) (shadowMap_autoUpdate r)
     (currentBlending r) (renderTargets r) (materials r) s (calls r).

(** [deallocateRenderTarget]: the framebuffer and the textures are deleted. *)
Definition deallocateRenderTarget (r : t) (id : nat) : t :=
  mk (currentRenderTarget r) (xr_enabled r) (shadowMap_autoUpdate r)
     (currentBlending r) (renderTargets r ∖ {[ id ]}) (materials r)
     (listeners r) (calls r).

(** [deallocateMaterial]: the programs compiled for the material are released. *)
Definition deallocateMaterial (r : t) (id : nat) : t :=
  mk (currentRenderTarget r) (xr_enabled r) (shadowMap_autoUpdate r)
     (currentBlending r) (renderTargets r) (materials r ∖ {[ id ]})
     (listeners r) (calls r).

(** The call of one listener with a ['dispose'] event whose target is the
    object [id]: the listener removes itself from the object and frees what
    the renderer holds for it. *)
Definition call (r : t) (id : nat) (l : EventDispatcher.listener) : t :=
  let r := set_listeners r (EventDispatcher.removeEventListener (listeners r) id l) in
  match l with
  | EventDispatcher.onRenderTargetDispose => deallocateRenderTarget r id
  | EventDispatcher.onMaterialDispose => deallocateMaterial r id
  end.

(** [object.dispatchEvent( { type: 'dispose' } )]: nothing without listeners;
    otherwise every listener of a copy of the array is called in turn. *)
Definition dispatchEvent (r : t) (id : nat) : t :=
  match listeners r !! id with
  | None => r
  | Some array => fold_left (fun r l => call r id l) array r
  end.

(** The renderer listens for the disposal of every object it holds resources
    for.  [setupRenderTarget] and [initMaterial] register the listener as
    they allocate, and a listener frees as it removes itself. *)
Definition listening (r : t) : Prop :=
  (forall id, id ∈ renderTargets r ->
     exists array, listeners r !! id = Some array
                   /\ EventDispatcher.onRenderTargetDispose ∈ array)
  /\ (forall id, id ∈ materials r ->
        exists array, listeners r !! id = Some array
                      /\ EventDispatcher.onMaterialDispose ∈ array).
End WebGLRenderer.

(** ** Materials and render targets *)

Module Color.
(** [new Color( hex )], by the hexadecimal value it was built from. *)
Record t := mk { hex : Z }.
End Color.

Module Uniform.
(** The [value] of a uniform.  [TextureOf id] is the [texture] of the render
    target [id]; [TextureMatrixRef] is the [Matrix4] object that the mirror's
    closure holds in [textureMatrix]: the uniform and the closure share it,
    so the shader reads whatever [onBeforeRender] last wrote. *)
Inductive value :=
| Null
| Number (v : float)
| ColorValue (c : Color.t)
| TextureOf (id : nat)
| TextureMatrixRef.

(** [uniforms[ name ].value = v]; [uniforms[ name ]] must exist, or the
    assignment throws a [TypeError]. *)
Definition setValue (name : string) (v : value)
                    (uniforms : gmap string value) : option (gmap string value) :=
  match uniforms !! name with
  | Some _ => Some (<[ name := v ]> uniforms)
  | None => None
  end.
End Uniform.

Module UniformsUtils.
(** [UniformsUtils.clone]: a deep copy; the values here are immutable. *)
Definition clone (src : gmap string Uniform.value) : gmap string Uniform.value :=
  src.
End UniformsUtils.

Module ShaderMaterial.
Record t := mk {
  id : nat;
  uniforms : gmap string Uniform.value;
  fragmentShader : string;
  vertexShader : string;
  transparent : bool;
  opacity : float }.

Definition set_uniforms (m : t) (u : gmap string Uniform.value) : t :=
  mk (id m) u (fragmentShader m) (vertexShader m) (transparent m) (opacity m).

(** [Material.dispose]: [this.dispatchEvent( { type: 'dispose' } )]. *)
Definition dispose (m : t) (renderer : WebGLRenderer.t) : WebGLRenderer.t :=
  WebGLRenderer.dispatchEvent renderer (id m).
End ShaderMaterial.

Module WebGLRenderTarget.
(** [texture] is the colour attachment, known by the target's [id]. *)
Record t := mk { id : nat; width : float; height : float }.

Definition texture (rt : t) : Uniform.value := Uniform.TextureOf (id rt).

(** [RenderTarget.dispose]: [this.dispatchEvent( { type: 'dispose' } )]. *)
Definition dispose (rt : t) (renderer : WebGLRenderer.t) : WebGLRenderer.t :=
  WebGLRenderer.dispatchEvent renderer (id rt).
End WebGLRenderTarget.

(** ** The shader *)

Module Shader.
Record t := mk {
  uniforms : gmap string Uniform.value;
  vertexShader : string;
  fragmentShader : string }.

(** The shader computes in [float]s.  GLSL ES 3.00 asks that a [highp float]
    be an IEEE 754 binary32 number and that [+], [-] and [*] be correctly
    rounded.  The arithmetic below is the one [SpecFloat] defines for the
    binary format with [prec] bits of precision and exponents below [emax]:
    binary32 is the format (24, 128) and binary64 the format (53, 1024). *)
Section Float.
Local Open Scope Z_scope.

Variables prec emax : Z.

(** The power of two [2 ^ e], for an exponent of the normal range. *)
Definition exp2 (e : Z) : spec_float :=
  S754_finite false (Pos.iter xO xH (Z.to_pos (prec - 1))) (e - (prec - 1)).

(** The literals [0.5], [1.0] and [2.0]. *)
Definition half : spec_float := exp2 (-1).
Definition one : spec_float := exp2 0.
Definition two : spec_float := exp2 1.

(** [float blendOverlay( float base, float blend )] of the fragment shader. *)
Definition blendOverlay (base blend : spec_float) : spec_float :=
  if SFltb base half
  then SFmul prec emax (SFmul prec emax two base) blend
  else SFsub prec emax one
         (SFmul prec emax (SFmul prec emax two (SFsub prec emax one base))
            (SFsub prec emax one blend)).

(** [vec3 blendOverlay( vec3 base, vec3 blend )]: channel by channel. *)
Definition blendOverlay3 (base blend : spec_float * spec_float * spec_float)
    : spec_float * spec_float * spec_float :=
  let '(br, bg, bb) := base in
  let '(lr, lg, lb) := blend in
  (blendOverlay br lr, blendOverlay bg lg, blendOverlay bb lb).

(** A zero or a number of the format: neither an infinity nor NaN. *)
Definition regular (x : spec_float) : Prop :=
  match x with
  | S754_zero _ => True
  | S754_finite _ m e => bounded prec emax m e = true
  | _ => False
  end.
End Float.

(** The mantissa [m] shifted left by [k] bits, for a positive [k]. *)
Definition shifted (m : positive) (k : Z) : positive :=
  match k with
  | Z.pos k => Pos.iter xO m k
  | _ => m
  end.
End Shader.

(** ** The mirror *)

Module Options.
(** The [options] argument; [None] is a property that is [undefined]. *)
Record t := mk {
  color : option Z;
  textureWidth : option float;
  textureHeight : option float;
  clipBias : option float;
  shader : option Shader.t;
  opacity : option float;
  transparent : option bool }.


(** [options.p || d] for a numeric property [p]. *)
Definition number_or (p : option float) (d : float) : float :=
  match p with
  | Some v => Math.or_else v d
  | None => d
  end.
End Options.

Module Reflector.
Local Open Scope float_scope.

(** [Reflector.ReflectorShader] *)
Definition ReflectorShader : Shader.t :=
  Shader.mk
    (<[ "color" := Uniform.Null ]>
     (<[ "tDiffuse" := Uniform.Null ]>
      (<[ "textureMatrix" := Uniform.Null ]>
       (<[ "opacity" := Uniform.Number 0.3 ]>
        (<[ "floorTexture" := Uniform.Null ]> ∅)))))
    "uniform mat4 textureMatrix;
  varying vec4 vUv;
  varying vec2 vUv2;
  void main() {
    vUv2 = uv;
    vUv = textureMatrix * vec4( position, 1.0 );
    gl_Position = projectionMatrix * modelViewMatrix * vec4( position, 1.0 );
  }"
    "uniform vec3 color;
  uniform sampler2D tDiffuse;
  uniform sampler2D floorTexture;
  uniform float opacity;
  varying vec4 vUv;
  varying vec2 vUv2;
  float blendOverlay( float base, float blend ) {
    return( base < 0.5 ? ( 2.0 * base * blend ) : ( 1.0 - 2.0 * ( 1.0 - base ) * ( 1.0 - blend ) ) );
  }
  vec3 blendOverlay( vec3 base, vec3 blend ) {
    return vec3( blendOverlay( base.r, blend.r ), blendOverlay( base.g, blend.g ), blendOverlay( base.b, blend.b ) );
  }
  void main() {
    vec4 floor = texture2D( floorTexture, vUv2 );
    vec4 base = texture2DProj( tDiffuse, vUv );
    gl_FragColor = vec4( mix(floor.rgb, blendOverlay( base.rgb, color ), opacity), 1.0 );
  }".

(** The objects that the constructor's closure keeps between frames. *)
Record closure := mkClosure {
  clipBias : float;
  reflectorPlane : Plane.t;
  normal : Vector3.t;
  reflectorWorldPosition : Vector3.t;
  cameraWorldPosition : Vector3.t;
  rotationMatrix : Matrix4.t;
  lookAtPosition : Vector3.t;
  clipPlane : Vector4.t;
  view : Vector3.t;
  target : Vector3.t;
  q : Vector4.t;
  textureMatrix : Matrix4.t }.

(** The mirror: a [Mesh] with its world matrix and visibility, the virtual
    camera ([this.camera], which the closure calls [virtualCamera]), the
    material, the render target and the closure. *)
Record t := mk {
  id : nat;
  geometry : nat;
  matrixWorld : Matrix4.t;
  visible : bool;
  camera : PerspectiveCamera.t;
  material : ShaderMaterial.t;
  renderTarget : WebGLRenderTarget.t;
  scratch : closure }.

(** [new Reflector( geometry, options )].  [virtualCamera] is the result of
    [new PerspectiveCamera()]; [id], [renderTargetId] and [materialId] are the
    identities of the three objects created. *)
Definition constructor (id geometry : nat) (virtualCamera : PerspectiveCamera.t)
    (renderTargetId materialId : nat) (options : Options.t) : option t :=
  let color := match Options.color options with
               | Some c => Color.mk c
               | None => Color.mk 0x7F7F7F
               end in
  let textureWidth := Options.number_or (Options.textureWidth options) 512 in
  let textureHeight := Options.number_or (Options.textureHeight options) 512 in
  let clipBias := Options.number_or (Options.clipBias options) 0 in
  let shader := default ReflectorShader (Options.shader options) in
  let opacity := Options.number_or (Options.opacity options) 1.0 in
  let transparent := default true (Options.transparent options) in
  let reflectorPlane := Plane.mk (Vector3.mk 1 0 0) 0 in
  let normal := Vector3.mk 0 0 0 in
  let reflectorWorldPosition := Vector3.mk 0 0 0 in
  let cameraWorldPosition := Vector3.mk 0 0 0 in
  let rotationMatrix := Matrix4.identity in
  let lookAtPosition := Vector3.mk 0 0 (-1) in
  let clipPlane := Vector4.mk 0 0 0 1 in
  let view := Vector3.mk 0 0 0 in
  let target := Vector3.mk 0 0 0 in
  let q := Vector4.mk 0 0 0 1 in
  let textureMatrix := Matrix4.identity in
  let renderTarget := WebGLRenderTarget.mk renderTargetId textureWidth textureHeight in
  let material :=
    ShaderMaterial.mk materialId (UniformsUtils.clone (Shader.uniforms shader))
      (Shader.fragmentShader shader) (Shader.vertexShader shader)
      transparent opacity in
  u ← Uniform.setValue "tDiffuse" (WebGLRenderTarget.texture renderTarget)
        (ShaderMaterial.uniforms material);
  u ← Uniform.setValue "color" (Uniform.ColorValue color) u;
  u ← Uniform.setValue "textureMatrix" Uniform.TextureMatrixRef u;
  let material := ShaderMaterial.set_uniforms material u in
  Some (mk id geometry Matrix4.identity true virtualCamera material renderTarget
           (mkClosure clipBias reflectorPlane normal reflectorWorldPosition
              cameraWorldPosition rotationMatrix lookAtPosition clipPlane
              view target q textureMatrix)).

(** [scope.onBeforeRender( renderer, scene, camera )]: the renderer and the
    mirror after the call, when the two renders call nothing back.  The real
    [camera] is only read. *)
Definition onBeforeRender (scope : t) (renderer : WebGLRenderer.t)
    (scene : Scene) (camera : PerspectiveCamera.t) : WebGLRenderer.t * t :=
  let c := scratch scope in
  let reflectorWorldPosition := Matrix4.position (matrixWorld scope) in
  let cameraWorldPosition :=
    Matrix4.position (PerspectiveCamera.matrixWorld camera) in
  let rotationMatrix := Matrix4.extractRotation (matrixWorld scope) in
  let normal := Vector3.set 0 0 1 in
  let normal := Matrix4.applyToVector3 normal rotationMatrix in
  let view := Vector3.subVectors reflectorWorldPosition cameraWorldPosition in
  (* Avoid rendering when reflector is facing away *)
  if 0 <? Vector3.dot view normal then
    (renderer,
     mk (id scope) (geometry scope) (matrixWorld scope) (visible scope)
        (Reflector.camera scope) (material scope) (renderTarget scope)
        (mkClosure (clipBias c) (reflectorPlane c) normal reflectorWorldPosition
           cameraWorldPosition rotationMatrix (lookAtPosition c) (clipPlane c)
           view (target c) (q c) (textureMatrix c)))
  else
  let view := Vector3.negate (Vector3.reflect view normal) in
  let view := Vector3.add view reflectorWorldPosition in
  let rotationMatrix :=
    Matrix4.extractRotation (PerspectiveCamera.matrixWorld camera) in
  let lookAtPosition := Vector3.set 0 0 (-1) in
  let lookAtPosition := Matrix4.applyToVector3 lookAtPosition rotationMatrix in
  let lookAtPosition := Vector3.add lookAtPosition cameraWorldPosition in
  let target := Vector3.subVectors reflectorWorldPosition lookAtPosition in
  let target := Vector3.negate (Vector3.reflect target normal) in
  let target := Vector3.add target reflectorWorldPosition in
  let virtualCamera := Reflector.camera scope in
  let virtualCamera := PerspectiveCamera.set_position virtualCamera view in
  let virtualCamera := PerspectiveCamera.set_up virtualCamera (Vector3.set 0 1 0) in
  let virtualCamera :=
    PerspectiveCamera.set_up virtualCamera
      (Matrix4.applyToVector3 (PerspectiveCamera.up virtualCamera) rotationMatrix) in
  let virtualCamera :=
    PerspectiveCamera.set_up virtualCamera
      (Vector3.reflect (PerspectiveCamera.up virtualCamera) normal) in
  let virtualCamera := PerspectiveCamera.lookAt virtualCamera target in
  let virtualCamera :=
    PerspectiveCamera.set_far virtualCamera (PerspectiveCamera.far camera) in
  let virtualCamera := PerspectiveCamera.updateMatrixWorld virtualCamera in
  let virtualCamera :=
    PerspectiveCamera.set_projectionMatrix virtualCamera
      (Matrix4.copy (PerspectiveCamera.projectionMatrix camera)) in
  (* Update the texture matrix *)
  let textureMatrix :=
    Matrix4.set 0.5 0.0 0.0 0.5
                0.0 0.5 0.0 0.5
                0.0 0.0 0.5 0.5
                0.0 0.0 0.0 1.0 in
  let textureMatrix :=
    Matrix4.multiply textureMatrix (PerspectiveCamera.projectionMatrix virtualCamera) in
  let textureMatrix :=
    Matrix4.multiply textureMatrix (PerspectiveCamera.matrixWorldInverse virtualCamera) in
  let textureMatrix := Matrix4.multiply textureMatrix (matrixWorld scope) in
  (* Now update projection matrix with new clip plane *)
  let reflectorPlane :=
    Plane.setFromNormalAndCoplanarPoint normal reflectorWorldPosition in
  let reflectorPlane :=
    Plane.applyMatrix4 reflectorPlane
      (PerspectiveCamera.matrixWorldInverse virtualCamera) in
  let clipPlane :=
    Vector4.set (Vector3.x (Plane.normal reflectorPlane))
                (Vector3.y (Plane.normal reflectorPlane))
                (Vector3.z (Plane.normal reflectorPlane))
                (Plane.constant reflectorPlane) in
  let projectionMatrix := PerspectiveCamera.projectionMatrix virtualCamera in
  let q :=
    Vector4.mk
      ((Math.sign (Vector4.x clipPlane) + Matrix4.elements projectionMatrix 8)
       / Matrix4.elements projectionMatrix 0)
      ((Math.sign (Vector4.y clipPlane) + Matrix4.elements projectionMatrix 9)
       / Matrix4.elements projectionMatrix 5)
      (- 1.0)
      ((1.0 + Matrix4.elements projectionMatrix 10)
       / Matrix4.elements projectionMatrix 14) in
  (* Calculate the scaled plane vector *)
  let clipPlane := Vector4.multiplyScalar clipPlane (2.0 / Vector4.dot clipPlane q) in
  (* Replacing the third row of the projection matrix *)
  let projectionMatrix := Matrix4.setElement projectionMatrix 2 (Vector4.x clipPlane) in
  let projectionMatrix := Matrix4.setElement projectionMatrix 6 (Vector4.y clipPlane) in
  let projectionMatrix :=
    Matrix4.setElement projectionMatrix 10 (Vector4.z clipPlane + 1.0 - clipBias c) in
  let projectionMatrix := Matrix4.setElement projectionMatrix 14 (Vector4.w clipPlane) in
  let virtualCamera :=
    PerspectiveCamera.set_projectionMatrix virtualCamera projectionMatrix in
  (* Render *)
  let renderer :=
    WebGLRenderer.setRenderTarget renderer
      (Some (WebGLRenderTarget.id (renderTarget scope))) in
  let renderer := WebGLRenderer.state_setBlending renderer 0 in
  let renderer := WebGLRenderer.render renderer scene (visible scope) virtualCamera in
  let renderer := WebGLRenderer.setRenderTarget renderer None in
  (* Restore viewport *)
  let currentRenderTarget := WebGLRenderer.getRenderTarget renderer in
  let currentXrEnabled := WebGLRenderer.xr_enabled renderer in
  let currentShadowAutoUpdate := WebGLRenderer.shadowMap_autoUpdate renderer in
  let renderer := WebGLRenderer.set_xr_enabled renderer false in
  let renderer := WebGLRenderer.set_shadowMap_autoUpdate renderer false in
  let renderer := WebGLRenderer.setRenderTarget renderer currentRenderTarget in
  let renderer := WebGLRenderer.set_xr_enabled renderer currentXrEnabled in
  let renderer :=
    WebGLRenderer.set_shadowMap_autoUpdate renderer currentShadowAutoUpdate in
  let visible := false in
  let renderer := WebGLRenderer.render renderer scene visible camera in
  let visible := true in
  (renderer,
   mk (id scope) (geometry scope) (matrixWorld scope) visible virtualCamera
      (material scope) (renderTarget scope)
      (mkClosure (clipBias c) reflectorPlane normal reflectorWorldPosition
         cameraWorldPosition rotationMatrix lookAtPosition clipPlane
         view target q textureMatrix)).

(** The host's scene graph places the mirror: [scope.matrixWorld]. *)
Definition set_matrixWorld (scope : t) (m : Matrix4.t) : t :=
  mk (id scope) (geometry scope) m (visible scope) (Reflector.camera scope)
     (material scope) (renderTarget scope) (scratch scope).

(** [dispose()] *)
Definition dispose (scope : t) (renderer : WebGLRenderer.t) : WebGLRenderer.t :=
  let renderer := WebGLRenderTarget.dispose (renderTarget scope) renderer in
  ShaderMaterial.dispose (material scope) renderer.

(** What the shading stage reads for the uniform [name]: the matrix behind
    the shared reference, or the stored value. *)
Definition uniform (scope : t) (name : string) : option (Uniform.value + Matrix4.t) :=
  match ShaderMaterial.uniforms (material scope) !! name with
  | Some Uniform.TextureMatrixRef => Some (inr (textureMatrix (scratch scope)))
  | Some v => Some (inl v)
  | None => None
  end.
End Reflector.

(** ** One frame *)

Section Frame.
Local Open Scope float_scope.

Variables (scope : Reflector.t) (renderer : WebGLRenderer.t).
Variables (scene : Scene) (camera : PerspectiveCamera.t).

(** The vector from the real camera to the surface, dotted with the
    surface's world normal: the number the guard of [onBeforeRender] tests. *)
Definition viewDotNormal : float :=
  Vector3.dot
    (Vector3.subVectors (Matrix4.position (Reflector.matrixWorld scope))
                        (Matrix4.position (PerspectiveCamera.matrixWorld camera)))
    (Matrix4.applyToVector3 (Vector3.set 0 0 1)
       (Matrix4.extractRotation (Reflector.matrixWorld scope))).

(** The guard: the frame returns before the reflection is computed. *)
Definition skipped : bool := 0 <? viewDotNormal.

Definition rendererAfter : WebGLRenderer.t :=
  fst (Reflector.onBeforeRender scope renderer scene camera).

Definition scopeAfter : Reflector.t :=
  snd (Reflector.onBeforeRender scope renderer scene camera).

(** The renders issued during the frame, in order. *)
Definition newCalls : list WebGLRenderer.RenderCall :=
  drop (length (WebGLRenderer.calls renderer)) (WebGLRenderer.calls rendererAfter).

(** The first render of the frame. *)
Definition offscreenCall : option WebGLRenderer.RenderCall := newCalls !! 0%nat.

(** The texture matrix as the specification composes it: bias, projection,
    view, world. *)
Definition bias : Matrix4.t :=
  Matrix4.set 0.5 0.0 0.0 0.5
              0.0 0.5 0.0 0.5
              0.0 0.0 0.5 0.5
              0.0 0.0 0.0 1.0.

Definition textureMatrixOf (P V W : Matrix4.t) : Matrix4.t :=
  Matrix4.multiply (Matrix4.multiply (Matrix4.multiply bias P) V) W.

(** The mirror plane in the view space of the virtual camera of this frame. *)
Definition viewSpacePlane : Plane.t :=
  Plane.applyMatrix4
    (Plane.setFromNormalAndCoplanarPoint
       (Reflector.normal (Reflector.scratch scopeAfter))
       (Reflector.reflectorWorldPosition (Reflector.scratch scopeAfter)))
    (PerspectiveCamera.matrixWorldInverse (Reflector.camera scopeAfter)).
End Frame.

(** ** The frame inside the render loop *)

Module Loop.
Local Open Scope float_scope.

(** How a call ends: it returns, or the call stack is exhausted and the
    [RangeError] thrown there ends every call on the stack.  The objects keep
    what was written to them until then. *)
Inductive completion := Returns | Throws.

Abbreviation result := (completion * (WebGLRenderer.t * Reflector.t))%type.

(** [scope.visible = b] *)
Definition set_visible (scope : Reflector.t) (b : bool) : Reflector.t :=
  Reflector.mk (Reflector.id scope) (Reflector.geometry scope)
    (Reflector.matrixWorld scope) b (Reflector.camera scope)
    (Reflector.material scope) (Reflector.renderTarget scope)
    (Reflector.scratch scope).

(** The object that an argument [camera] refers to, as it is now: the
    mirror's own virtual camera when that is what was passed, as the renderer
    passes it when it calls the hook from the offscreen render. *)
Definition current (scope : Reflector.t) (camera : PerspectiveCamera.t)
    : PerspectiveCamera.t :=
  if Nat.eqb (PerspectiveCamera.id camera) (PerspectiveCamera.id (Reflector.camera scope))
  then Reflector.camera scope
  else camera.

(** The draw of the mirror with its material: the program is compiled at the
    first draw ([setProgram]), and [state.setMaterial] sets the blending that
    the material asks for, [NormalBlending] (1) for a transparent material and
    [NoBlending] (0) otherwise. *)
Definition draw (renderer : WebGLRenderer.t) (scope : Reflector.t) : WebGLRenderer.t :=
  let material := Reflector.material scope in
  let renderer := WebGLRenderer.initMaterial renderer (ShaderMaterial.id material) in
  WebGLRenderer.state_setBlending renderer
    (if ShaderMaterial.transparent material then 1 else 0)%nat.

(** Lines 60 to 68 of [onBeforeRender]: the scratch objects that the guard
    reads. *)
Definition beforeGuard (scope : Reflector.t) (camera : PerspectiveCamera.t)
    : Reflector.t :=
  let c := Reflector.scratch scope in
  let reflectorWorldPosition := Matrix4.position (Reflector.matrixWorld scope) in
  let cameraWorldPosition :=
    Matrix4.position (PerspectiveCamera.matrixWorld camera) in
  let rotationMatrix := Matrix4.extractRotation (Reflector.matrixWorld scope) in
  let normal := Vector3.set 0 0 1 in
  let normal := Matrix4.applyToVector3 normal rotationMatrix in
  let view := Vector3.subVectors reflectorWorldPosition cameraWorldPosition in
  Reflector.mk (Reflector.id scope) (Reflector.geometry scope)
    (Reflector.matrixWorld scope) (Reflector.visible scope) (Reflector.camera scope)
    (Reflector.material scope) (Reflector.renderTarget scope)
    (Reflector.mkClosure (Reflector.clipBias c) (Reflector.reflectorPlane c) normal
       reflectorWorldPosition cameraWorldPosition rotationMatrix
       (Reflector.lookAtPosition c) (Reflector.clipPlane c) view (Reflector.target c)
       (Reflector.q c) (Reflector.textureMatrix c)).

(** Lines 74 to 130: the virtual camera, the texture matrix and the oblique
    near plane, from the scratch objects as the guard left them. *)
Definition afterGuard (scope : Reflector.t) (camera : PerspectiveCamera.t)
    : Reflector.t :=
  let c := Reflector.scratch scope in
  let normal := Reflector.normal c in
  let reflectorWorldPosition := Reflector.reflectorWorldPosition c in
  let cameraWorldPosition := Reflector.cameraWorldPosition c in
  let view := Reflector.view c in
  let view := Vector3.negate (Vector3.reflect view normal) in
  let view := Vector3.add view reflectorWorldPosition in
  let rotationMatrix :=
    Matrix4.extractRotation (PerspectiveCamera.matrixWorld camera) in
  let lookAtPosition := Vector3.set 0 0 (-1) in
  let lookAtPosition := Matrix4.applyToVector3 lookAtPosition rotationMatrix in
  let lookAtPosition := Vector3.add lookAtPosition cameraWorldPosition in
  let target := Vector3.subVectors reflectorWorldPosition lookAtPosition in
  let target := Vector3.negate (Vector3.reflect target normal) in
  let target := Vector3.add target reflectorWorldPosition in
  let virtualCamera := Reflector.camera scope in
  let virtualCamera := PerspectiveCamera.set_position virtualCamera view in
  let virtualCamera := PerspectiveCamera.set_up virtualCamera (Vector3.set 0 1 0) in
  let virtualCamera :=
    PerspectiveCamera.set_up virtualCamera
      (Matrix4.applyToVector3 (PerspectiveCamera.up virtualCamera) rotationMatrix) in
  let virtualCamera :=
    PerspectiveCamera.set_up virtualCamera
      (Vector3.reflect (PerspectiveCamera.up virtualCamera) normal) in
  let virtualCamera := PerspectiveCamera.lookAt virtualCamera target in
  let virtualCamera :=
    PerspectiveCamera.set_far virtualCamera (PerspectiveCamera.far camera) in
  let virtualCamera := PerspectiveCamera.updateMatrixWorld virtualCamera in
  let virtualCamera :=
    PerspectiveCamera.set_projectionMatrix virtualCamera
      (Matrix4.copy (PerspectiveCamera.projectionMatrix camera)) in
  (* Update the texture matrix *)
  let textureMatrix :=
    Matrix4.set 0.5 0.0 0.0 0.5
                0.0 0.5 0.0 0.5
                0.0 0.0 0.5 0.5
                0.0 0.0 0.0 1.0 in
  let textureMatrix :=
    Matrix4.multiply textureMatrix (PerspectiveCamera.projectionMatrix virtualCamera) in
  let textureMatrix :=
    Matrix4.multiply textureMatrix (PerspectiveCamera.matrixWorldInverse virtualCamera) in
  let textureMatrix := Matrix4.multiply textureMatrix (Reflector.matrixWorld scope) in
  (* Now update projection matrix with new clip plane *)
  let reflectorPlane :=
    Plane.setFromNormalAndCoplanarPoint normal reflectorWorldPosition in
  let reflectorPlane :=
    Plane.applyMatrix4 reflectorPlane
      (PerspectiveCamera.matrixWorldInverse virtualCamera) in
  let clipPlane :=
    Vector4.set (Vector3.x (Plane.normal reflectorPlane))
                (Vector3.y (Plane.normal reflectorPlane))
                (Vector3.z (Plane.normal reflectorPlane))
                (Plane.constant reflectorPlane) in
  let projectionMatrix := PerspectiveCamera.projectionMatrix virtualCamera in
  let q :=
    Vector4.mk
      ((Math.sign (Vector4.x clipPlane) + Matrix4.elements projectionMatrix 8)
       / Matrix4.elements projectionMatrix 0)
      ((Math.sign (Vector4.y clipPlane) + Matrix4.elements projectionMatrix 9)
       / Matrix4.elements projectionMatrix 5)
      (- 1.0)
      ((1.0 + Matrix4.elements projectionMatrix 10)
       / Matrix4.elements projectionMatrix 14) in
  (* Calculate the scaled plane vector *)
  let clipPlane := Vector4.multiplyScalar clipPlane (2.0 / Vector4.dot clipPlane q) in
  (* Replacing the third row of the projection matrix *)
  let projectionMatrix := Matrix4.setElement projectionMatrix 2 (Vector4.x clipPlane) in
  let projectionMatrix := Matrix4.setElement projectionMatrix 6 (Vector4.y clipPlane) in
  let projectionMatrix :=
    Matrix4.setElement projectionMatrix 10
      (Vector4.z clipPlane + 1.0 - Reflector.clipBias c) in
  let projectionMatrix := Matrix4.setElement projectionMatrix 14 (Vector4.w clipPlane) in
  let virtualCamera :=
    PerspectiveCamera.set_projectionMatrix virtualCamera projectionMatrix in
  Reflector.mk (Reflector.id scope) (Reflector.geometry scope)
    (Reflector.matrixWorld scope) (Reflector.visible scope) virtualCamera
    (Reflector.material scope) (Reflector.renderTarget scope)
    (Reflector.mkClosure (Reflector.clipBias c) reflectorPlane normal
       reflectorWorldPosition cameraWorldPosition rotationMatrix lookAtPosition
       clipPlane view target q textureMatrix).

Section Hook.

(** [scope.onBeforeRender], as the renderer calls it from inside a render. *)
Variable hook :
  Reflector.t -> WebGLRenderer.t -> Scene -> PerspectiveCamera.t -> result.

(** [renderer.render( scene, camera )] of three.js, as far as the mirror is
    concerned.  The mirror belongs to the scene and is in view: when it is
    visible the traversal puts it on the render list, its [onBeforeRender] is
    called with the camera of this render, and it is drawn. *)
Definition render (renderer : WebGLRenderer.t) (scope : Reflector.t)
    (scene : Scene) (camera : PerspectiveCamera.t) : result :=
  let renderer :=
    WebGLRenderer.render renderer scene (Reflector.visible scope) camera in
  if Reflector.visible scope then
    match hook scope renderer scene camera with
    | (Returns, (renderer, scope)) => (Returns, (draw renderer scope, scope))
    | (Throws, state) => (Throws, state)
    end
  else (Returns, (renderer, scope)).

(** Lines 133 to 160: the two renders, with the renderer's state saved and
    restored in between as the source does it. *)
Definition renders (scope : Reflector.t) (renderer : WebGLRenderer.t)
    (scene : Scene) (camera : PerspectiveCamera.t) : result :=
  let virtualCamera := Reflector.camera scope in
  (* Render *)
  let renderer :=
    WebGLRenderer.setRenderTarget renderer
      (Some (WebGLRenderTarget.id (Reflector.renderTarget scope))) in
  let renderer := WebGLRenderer.state_setBlending renderer 0 in
  match render renderer scope scene virtualCamera with
  | (Throws, state) => (Throws, state)
  | (Returns, (renderer, scope)) =>
      let renderer := WebGLRenderer.setRenderTarget renderer None in
      (* Restore viewport *)
      let currentRenderTarget := WebGLRenderer.getRenderTarget renderer in
      let currentXrEnabled := WebGLRenderer.xr_enabled renderer in
      let currentShadowAutoUpdate := WebGLRenderer.shadowMap_autoUpdate renderer in
      let renderer := WebGLRenderer.set_xr_enabled renderer false in
      let renderer := WebGLRenderer.set_shadowMap_autoUpdate renderer false in
      let renderer := WebGLRenderer.setRenderTarget renderer currentRenderTarget in
      let renderer := WebGLRenderer.set_xr_enabled renderer currentXrEnabled in
      let renderer :=
        WebGLRenderer.set_shadowMap_autoUpdate renderer currentShadowAutoUpdate in
      let scope := set_visible scope false in
      match render renderer scope scene (current scope camera) with
      | (Throws, state) => (Throws, state)
      | (Returns, (renderer, scope)) => (Returns, (renderer, set_visible scope true))
      end
  end.

(** [scope.onBeforeRender( renderer, scene, camera )], with the two renders
    run as three.js runs them. *)
Definition onBeforeRender (scope : Reflector.t) (renderer : WebGLRenderer.t)
    (scene : Scene) (camera : PerspectiveCamera.t) : result :=
  let scope := beforeGuard scope camera in
  (* Avoid rendering when reflector is facing away *)
  if 0 <? Vector3.dot (Reflector.view (Reflector.scratch scope))
                      (Reflector.normal (Reflector.scratch scope))
  then (Returns, (renderer, scope))
  else renders (afterGuard scope camera) renderer scene camera.
End Hook.

(** The hook with room for [depth] more calls of itself on the call stack. *)
Fixpoint onBeforeRenderIn (depth : nat) (scope : Reflector.t)
    (renderer : WebGLRenderer.t) (scene : Scene) (camera : PerspectiveCamera.t)
    : result :=
  match depth with
  | O => (Throws, (renderer, scope))
  | S depth => onBeforeRender (onBeforeRenderIn depth) scope renderer scene camera
  end.

(** The parts of a result. *)
Definition ends (r : result) : completion := fst r.
Definition renderer (r : result) : WebGLRenderer.t := fst (snd r).
Definition scope (r : result) : Reflector.t := snd (snd r).
End Loop.

Section FrameInLoop.
Local Open Scope float_scope.

Variables (depth : nat) (scope : Reflector.t) (renderer : WebGLRenderer.t).
Variables (scene : Scene) (camera : PerspectiveCamera.t).





End FrameInLoop.

(** The oblique near plane, as the specification words it: [q] from the
    view-space plane and the projection [m], and the plane scaled by
    [2 / dot( plane, q )]. *)
Module Oblique.
Local Open Scope float_scope.

Definition plane4 (plane : Plane.t) : Vector4.t :=
  Vector4.mk (Vector3.x (Plane.normal plane)) (Vector3.y (Plane.normal plane))
             (Vector3.z (Plane.normal plane)) (Plane.constant plane).

Definition q (plane : Plane.t) (m : Matrix4.t) : Vector4.t :=
  Vector4.mk
    ((Math.sign (Vector3.x (Plane.normal plane)) + Matrix4.elements m 8)
     / Matrix4.elements m 0)
    ((Math.sign (Vector3.y (Plane.normal plane)) + Matrix4.elements m 9)
     / Matrix4.elements m 5)
    (-1)
    ((1 + Matrix4.elements m 10) / Matrix4.elements m 14).

Definition scaled (plane : Plane.t) (m : Matrix4.t) : Vector4.t :=
  Vector4.multiplyScalar (plane4 plane) (2 / Vector4.dot (plane4 plane) (q plane m)).
End Oblique.

(** The four elements of the third row of a column-major 4x4 matrix. *)
Definition thirdRow (i : nat) : bool :=
  match i with
  | 2 | 6 | 10 | 14 => true
  | _ => false
  end%nat.

(** ** The claims of the specification that the program does not meet, as the
    specification states them *)

Section Stated.
Local Open Scope float_scope.

Variable depth : nat.
Variables (scope : Reflector.t) (renderer : WebGLRenderer.t).
Variables (scene : Scene) (camera : PerspectiveCamera.t).


(** The texture matrix is built from the projection and view matrices that
    the offscreen render of the frame is issued with. *)
Definition texture_matrix_from_render_camera : Prop :=
  exists call,
    offscreenCall scope renderer scene camera = Some call
    /\ Reflector.textureMatrix (Reflector.scratch (scopeAfter scope renderer scene camera))
       = textureMatrixOf
           (PerspectiveCamera.projectionMatrix (WebGLRenderer.call_camera call))
           (PerspectiveCamera.matrixWorldInverse (WebGLRenderer.call_camera call))
           (Reflector.matrixWorld scope).

End Stated.

(** The overlay of [x] on the bases 0, 1 and one half is 0, 1 and [x], for
    every [x] between 0 and 1 of the format. *)
Definition overlay_identities (prec emax : Z) : Prop :=
  forall x : spec_float,
    SpecFloat.valid_binary prec emax x = true ->
    SFleb (S754_zero false) x = true ->
    SFleb x (Shader.one prec) = true ->
    SFeqb (Shader.blendOverlay prec emax (S754_zero false) x) (S754_zero false) = true
    /\ SFeqb (Shader.blendOverlay prec emax (Shader.one prec) x) (Shader.one prec)
       = true
    /\ SFeqb (Shader.blendOverlay prec emax (Shader.half prec) x) x = true.

(** ** A scene to run the program on: a mirror on the floor *)

Module Scenario.
Local Open Scope float_scope.

(** A perspective projection: field of view 90 degrees, aspect 1, near 1,
    far 1025. *)
Definition projection : Matrix4.t :=
  Matrix4.set 1 0 0 0
              0 1 0 0
              0 0 (-1.001953125) (-2.001953125)
              0 0 (-1) 0.

(** A camera at the origin, looking down the negative z axis. *)
Definition newPerspectiveCamera (id : nat) : PerspectiveCamera.t :=
  PerspectiveCamera.mk id (Vector3.mk 0 0 0) (Vector3.mk 0 1 0)
    (Quaternion.mk 0 0 0 1) (Vector3.mk 1 1 1)
    Matrix4.identity Matrix4.identity Matrix4.identity projection 1025.

(** The mirror that [new Reflector( geometry )] builds. *)
Definition newReflector : Reflector.t :=
  Reflector.mk 10 11 Matrix4.identity true (newPerspectiveCamera 2)
    (ShaderMaterial.mk 13
       (<[ "textureMatrix" := Uniform.TextureMatrixRef ]>
        (<[ "color" := Uniform.ColorValue (Color.mk 0x7F7F7F) ]>
         (<[ "tDiffuse" := Uniform.TextureOf 12 ]>
          (Shader.uniforms Reflector.ReflectorShader))))
       (Shader.fragmentShader Reflector.ReflectorShader)
       (Shader.vertexShader Reflector.ReflectorShader) true 1)
    (WebGLRenderTarget.mk 12 512 512)
    (Reflector.mkClosure 0 (Plane.mk (Vector3.mk 1 0 0) 0) (Vector3.mk 0 0 0)
       (Vector3.mk 0 0 0) (Vector3.mk 0 0 0) Matrix4.identity
       (Vector3.mk 0 0 (-1)) (Vector4.mk 0 0 0 1) (Vector3.mk 0 0 0)
       (Vector3.mk 0 0 0) (Vector4.mk 0 0 0 1) Matrix4.identity).

(** The rotation by a quarter turn about the x axis that lays the mirror in
    the plane y = 0, facing up. *)
Definition floor : Matrix4.t :=
  Matrix4.set 1 0 0 0
              0 0 1 0
              0 (-1) 0 0
              0 0 0 1.

Definition mirror : Reflector.t := Reflector.set_matrixWorld newReflector floor.

(** The real camera at (0, 5, 10), looking at the origin. *)
Definition camera : PerspectiveCamera.t :=
  PerspectiveCamera.updateMatrixWorld
    (PerspectiveCamera.lookAt
       (PerspectiveCamera.set_position (newPerspectiveCamera 1) (Vector3.mk 0 5 10))
       (Vector3.mk 0 0 0)).

(** The real camera lowered into the plane of the mirror, at (0, 0, 10). *)
Definition cameraInPlane : PerspectiveCamera.t :=
  PerspectiveCamera.updateMatrixWorld
    (PerspectiveCamera.set_position (newPerspectiveCamera 1) (Vector3.mk 0 0 10)).


(** A host that renders into a target of its own, with XR on and shadow
    maps updated automatically. *)
Definition renderer : WebGLRenderer.t :=
  WebGLRenderer.mk (Some 7%nat) true true None {[ 7%nat ]} ∅
    {[ 7%nat := [ EventDispatcher.onRenderTargetDispose ] ]} [].

Definition scene : Scene := 0%nat.

(** The renderer after one frame of the floor mirror, and after the host has
    drawn the mirror with its material. *)
Definition rendererAfterDraw : WebGLRenderer.t :=
  WebGLRenderer.initMaterial (rendererAfter mirror renderer scene camera)
    (ShaderMaterial.id (Reflector.material mirror)).

(** [{ opacity: 0.8 }] *)
Definition translucent : Options.t :=
  Options.mk None None None None None (Some 0.8) None.

(** [{ textureWidth: 0, opacity: 0, transparent: false }] *)
Definition degenerate : Options.t :=
  Options.mk None (Some 0) None None None (Some 0) (Some false).

(** A shader that declares [tDiffuse] and [textureMatrix] but no [color]. *)
Definition colourless : Shader.t :=
  Shader.mk (<[ "tDiffuse" := Uniform.Null ]>
             (<[ "textureMatrix" := Uniform.Null ]> ∅)) "" "".

(** The literals [0.1] and [0.75] as numbers of binary32, and [0.1] as a
    number of binary64. *)
Definition tenth32 : spec_float := S754_finite false 13421773%positive (-27)%Z.
Definition threeQuarters32 : spec_float :=
  S754_finite false 12582912%positive (-24)%Z.
Definition tenth64 : spec_float := Prim2SF 0.1.
End Scenario.

(** ** What a frame reads of the mirror *)


(** The uniforms that the constructor assigns. *)
Definition assignedUniforms : list string := [ "tDiffuse"; "color"; "textureMatrix" ].

(** ** Running a frame *)

(** Unfold a frame whose guard is known: [H] is [skipped scope camera = b]. *)
Ltac enter_frame H :=
  unfold skipped, viewDotNormal in H;
  unfold offscreenCall, newCalls, viewSpacePlane,
    rendererAfter, scopeAfter, Reflector.onBeforeRender;
  cbv zeta; rewrite H.

(** Run the renderer calls of a frame down to the recorded state; [fields] is
    the lemma below on binding a render target. *)
Ltac renderer_steps fields :=
  match goal with
  | |- context [WebGLRenderer.setRenderTarget ?r (Some ?id)] =>
      let targets := fresh "targets" in
      let listeners := fresh "listeners" in
      destruct (fields r (Some id)) as (targets & listeners & ->)
  end;
  cbv beta iota zeta delta
    [fst snd WebGLRenderer.calls WebGLRenderer.render WebGLRenderer.setRenderTarget
     WebGLRenderer.set_xr_enabled WebGLRenderer.set_shadowMap_autoUpdate
     WebGLRenderer.state_setBlending WebGLRenderer.getRenderTarget
     WebGLRenderer.currentRenderTarget WebGLRenderer.xr_enabled
     WebGLRenderer.shadowMap_autoUpdate WebGLRenderer.currentBlending
     WebGLRenderer.renderTargets WebGLRenderer.materials WebGLRenderer.listeners];
  rewrite <- ?app_assoc, ?drop_app_length.

(** The same, keeping track of what the renderer holds; [allocates] is the
    lemma on binding a render target that says so. *)
Ltac renderer_steps_allocating allocates :=
  match goal with
  | |- context [WebGLRenderer.setRenderTarget ?r (Some ?id)] =>
      let listeners := fresh "listeners" in
      destruct (allocates r id) as (listeners & ->)
  end;
  cbv beta iota zeta delta
    [fst snd WebGLRenderer.calls WebGLRenderer.render WebGLRenderer.setRenderTarget
     WebGLRenderer.set_xr_enabled WebGLRenderer.set_shadowMap_autoUpdate
     WebGLRenderer.state_setBlending WebGLRenderer.getRenderTarget
     WebGLRenderer.currentRenderTarget WebGLRenderer.xr_enabled
     WebGLRenderer.shadowMap_autoUpdate WebGLRenderer.currentBlending
     WebGLRenderer.renderTargets WebGLRenderer.materials WebGLRenderer.listeners];
  rewrite <- ?app_assoc, ?drop_app_length.

(** Unfold the derivation of the virtual camera down to its fields. *)
Ltac camera_steps :=
  cbv beta iota zeta delta
    [PerspectiveCamera.lookAt PerspectiveCamera.updateMatrixWorld
     PerspectiveCamera.updateWorldMatrix PerspectiveCamera.updateMatrix
     PerspectiveCamera.set_position PerspectiveCamera.set_up
     PerspectiveCamera.set_quaternion PerspectiveCamera.set_matrix
     PerspectiveCamera.set_matrixWorld PerspectiveCamera.set_matrixWorldInverse
     PerspectiveCamera.set_projectionMatrix PerspectiveCamera.set_far
     PerspectiveCamera.id PerspectiveCamera.position PerspectiveCamera.up
     PerspectiveCamera.quaternion PerspectiveCamera.scale PerspectiveCamera.matrix
     PerspectiveCamera.matrixWorld PerspectiveCamera.matrixWorldInverse
     PerspectiveCamera.projectionMatrix PerspectiveCamera.far Matrix4.copy
     Reflector.camera Reflector.scratch Reflector.clipBias Reflector.matrixWorld
     Reflector.id Reflector.geometry Reflector.material Reflector.renderTarget
     Reflector.visible fst snd].

(** Read a field of the mirror or of its camera after the frame. *)
Ltac mirror_fields :=
  cbv beta iota delta
    [fst snd Reflector.camera Reflector.scratch Reflector.visible
     Reflector.matrixWorld Reflector.material Reflector.renderTarget
     Reflector.clipBias Reflector.reflectorPlane Reflector.normal
     Reflector.reflectorWorldPosition Reflector.clipPlane Reflector.q
     Reflector.view Reflector.textureMatrix
     PerspectiveCamera.projectionMatrix PerspectiveCamera.set_projectionMatrix
     PerspectiveCamera.matrixWorldInverse PerspectiveCamera.position
     WebGLRenderer.call_camera WebGLRenderer.call_target WebGLRenderer.call_scene
     WebGLRenderer.call_xrEnabled WebGLRenderer.call_shadowAutoUpdate
     WebGLRenderer.call_mirrorVisible].

(** Binding a render target changes the bound target and, when the target is
    new to the renderer, what the renderer holds and listens to; the flags,
    the blending, the materials and the recorded renders stay. *)
Lemma setRenderTarget_fields (r : WebGLRenderer.t) (renderTarget : option nat) :
  exists targets listeners,
    WebGLRenderer.setRenderTarget r renderTarget
    = WebGLRenderer.mk renderTarget (WebGLRenderer.xr_enabled r)
        (WebGLRenderer.shadowMap_autoUpdate r) (WebGLRenderer.currentBlending r)
        targets (WebGLRenderer.materials r) listeners (WebGLRenderer.calls r).
Proof.
  unfold WebGLRenderer.setRenderTarget.
  destruct renderTarget as [id | ]; [ | eexists _, _; reflexivity ].
  destruct (decide (id ∈ WebGLRenderer.renderTargets r)); eexists _, _; reflexivity.
Qed.

Lemma thirdRow_false (i : nat) :
  thirdRow i = false -> i <> 2%nat /\ i <> 6%nat /\ i <> 10%nat /\ i <> 14%nat.
Proof.
  intros H; repeat split; intros ->; discriminate H.
Qed.

(** Writing the third row leaves the other elements alone. *)
Lemma elements_after_third_row (m : Matrix4.t) (a b c d : float) (i : nat) :
  thirdRow i = false ->
  Matrix4.elements
    (Matrix4.setElement
       (Matrix4.setElement (Matrix4.setElement (Matrix4.setElement m 2 a) 6 b) 10 c)
       14 d) i
  = Matrix4.elements m i.
Proof.
  intros H.
  do 15 (destruct i as [| i]; [ first [ discriminate H | reflexivity ] | ]).
  destruct i; reflexivity.
Qed.

(** ** What a call of the hook does inside the render loop *)

Lemma position_compose (p : Vector3.t) (q : Quaternion.t) (s : Vector3.t) :
  Matrix4.position (Matrix4.compose p q s) = p.
Proof. destruct p. reflexivity. Qed.

(** *** The two halves of the hook *)

Lemma beforeGuard_dot (scope : Reflector.t) (camera : PerspectiveCamera.t) :
  Vector3.dot (Reflector.view (Reflector.scratch (Loop.beforeGuard scope camera)))
              (Reflector.normal (Reflector.scratch (Loop.beforeGuard scope camera)))
  = viewDotNormal scope camera.
Proof. reflexivity. Qed.


Lemma afterGuard_placement (scope : Reflector.t) (camera : PerspectiveCamera.t) :
  let scope' := Loop.afterGuard (Loop.beforeGuard scope camera) camera in
  Reflector.matrixWorld scope' = Reflector.matrixWorld scope
  /\ Reflector.visible scope' = Reflector.visible scope
  /\ Reflector.renderTarget scope' = Reflector.renderTarget scope.
Proof. repeat split. Qed.

(** *** The renders of a call are appended to the record *)



Section HookFacts.
Local Open Scope float_scope.

Variable hook :
  Reflector.t -> WebGLRenderer.t -> Scene -> PerspectiveCamera.t -> Loop.result.

Hypothesis hook_appends :
  forall scope renderer scene camera,
    exists rest,
      WebGLRenderer.calls (Loop.renderer (hook scope renderer scene camera))
      = WebGLRenderer.calls renderer ++ rest.


Lemma onBeforeRender_skips (scope : Reflector.t) (renderer : WebGLRenderer.t)
    (scene : Scene) (camera : PerspectiveCamera.t) :
  skipped scope camera = true ->
  Loop.onBeforeRender hook scope renderer scene camera
  = (Loop.Returns, (renderer, Loop.beforeGuard scope camera)).
Proof.
  intros H. unfold Loop.onBeforeRender. cbv zeta.
  rewrite beforeGuard_dot. unfold skipped in H. rewrite H. reflexivity.
Qed.


Lemma onBeforeRender_runs (scope : Reflector.t) (renderer : WebGLRenderer.t)
    (scene : Scene) (camera : PerspectiveCamera.t) :
  skipped scope camera = false ->
  Loop.onBeforeRender hook scope renderer scene camera
  = Loop.renders hook (Loop.afterGuard (Loop.beforeGuard scope camera) camera)
      renderer scene camera.
Proof.
  intros H. unfold Loop.onBeforeRender. cbv zeta.
  rewrite beforeGuard_dot. unfold skipped in H. rewrite H. reflexivity.
Qed.

End HookFacts.

Lemma onBeforeRenderIn_S (depth : nat) (scope : Reflector.t)
    (renderer : WebGLRenderer.t) (scene : Scene) (camera : PerspectiveCamera.t) :
  Loop.onBeforeRenderIn (S depth) scope renderer scene camera
  = Loop.onBeforeRender (Loop.onBeforeRenderIn depth) scope renderer scene camera.
Proof. reflexivity. Qed.

Lemma onBeforeRenderIn_skips (depth : nat) (scope : Reflector.t)
    (renderer : WebGLRenderer.t) (scene : Scene) (camera : PerspectiveCamera.t) :
  skipped scope camera = true ->
  Loop.onBeforeRenderIn (S depth) scope renderer scene camera
  = (Loop.Returns, (renderer, Loop.beforeGuard scope camera)).
Proof. intros H. rewrite onBeforeRenderIn_S. now apply onBeforeRender_skips. Qed.




(** ** The frame, statement by statement *)

Section FrameFacts.
Local Open Scope float_scope.

Variables (scope : Reflector.t) (renderer : WebGLRenderer.t).
Variables (scene : Scene) (camera : PerspectiveCamera.t).

Local Abbreviation renderer' := (rendererAfter scope renderer scene camera).
Local Abbreviation scope' := (scopeAfter scope renderer scene camera).
Local Abbreviation new_calls := (newCalls scope renderer scene camera).
Local Abbreviation offscreen := (offscreenCall scope renderer scene camera).

(** C2: in a frame that is not skipped, the virtual camera's projection
    matrix is the real camera's with the elements 2, 6, 10 and 14 replaced
    by the clip-plane row, whatever [clipBias] is; each of the other twelve
    elements is the real camera's. *)
Theorem oblique_clip_replaces_third_row (i : nat) :
  skipped scope camera = false ->
  let P' := PerspectiveCamera.projectionMatrix (Reflector.camera scope') in
  let row := Reflector.clipPlane (Reflector.scratch scope') in
  (thirdRow i = false ->
   Matrix4.elements P' i
   = Matrix4.elements (PerspectiveCamera.projectionMatrix camera) i)
  /\ Matrix4.elements P' 2 = Vector4.x row
  /\ Matrix4.elements P' 6 = Vector4.y row
  /\ Matrix4.elements P' 10
     = Vector4.z row + 1 - Reflector.clipBias (Reflector.scratch scope)
  /\ Matrix4.elements P' 14 = Vector4.w row.
Proof.
  intros H. enter_frame H. mirror_fields.
  split; [ | repeat split ].
  intros Hi. now apply elements_after_third_row.
Qed.

(** C3: in a frame that is not skipped, [q] is computed from the mirror
    plane in the virtual camera's view space and from the real camera's
    projection elements by the formula of the specification, the plane is
    scaled by [2 / dot( plane, q )], and its x, y, z + 1 - clipBias and w
    are written to the elements 2, 6, 10 and 14. *)
Theorem oblique_clip_row :
  skipped scope camera = false ->
  let plane := viewSpacePlane scope renderer scene camera in
  let m := PerspectiveCamera.projectionMatrix camera in
  let P' := PerspectiveCamera.projectionMatrix (Reflector.camera scope') in
  Reflector.reflectorPlane (Reflector.scratch scope') = plane
  /\ Reflector.q (Reflector.scratch scope') = Oblique.q plane m
  /\ Reflector.clipPlane (Reflector.scratch scope') = Oblique.scaled plane m
  /\ Matrix4.elements P' 2 = Vector4.x (Oblique.scaled plane m)
  /\ Matrix4.elements P' 6 = Vector4.y (Oblique.scaled plane m)
  /\ Matrix4.elements P' 10
     = Vector4.z (Oblique.scaled plane m) + 1
       - Reflector.clipBias (Reflector.scratch scope)
  /\ Matrix4.elements P' 14 = Vector4.w (Oblique.scaled plane m).
Proof.
  intros H. enter_frame H. mirror_fields. repeat split.
Qed.
(** C4, as the program has it: in a frame that is not skipped the texture
    matrix is bias * P0 * V * W, where V is the inverse world matrix of the
    virtual camera that the offscreen render is issued with, W is the surface's
    world matrix, and P0 is the real camera's projection matrix; the offscreen
    render is issued with P0 after its third row was replaced, so that the two
    projections agree on the other twelve elements. *)
Theorem texture_matrix_from_real_projection :
  skipped scope camera = false ->
  exists call,
    offscreen = Some call
    /\ WebGLRenderer.call_camera call = Reflector.camera scope'
    /\ Reflector.textureMatrix (Reflector.scratch scope')
       = textureMatrixOf
           (PerspectiveCamera.projectionMatrix camera)
           (PerspectiveCamera.matrixWorldInverse (WebGLRenderer.call_camera call))
           (Reflector.matrixWorld scope)
    /\ forall i,
         thirdRow i = false ->
         Matrix4.elements
           (PerspectiveCamera.projectionMatrix (WebGLRenderer.call_camera call)) i
         = Matrix4.elements (PerspectiveCamera.projectionMatrix camera) i.
Proof.
  intros H. enter_frame H. renderer_steps setRenderTarget_fields.
  eexists. split; [ reflexivity | ]. mirror_fields.
  split; [ reflexivity | ]. split; [ reflexivity | ].
  intros i Hi. now apply elements_after_third_row.
Qed.

(** C5, what the program does: in a frame that is not skipped the offscreen
    render runs under the XR and shadow flags the host had at entry, not
    under disabled ones; the flags are saved, disabled and restored only after
    that render, with no render in between; and the frame ends with no render
    target bound, whatever was bound at entry. *)
Theorem offscreen_render_under_host_flags :
  skipped scope camera = false ->
  exists call,
    offscreen = Some call
    /\ WebGLRenderer.call_target call
       = Some (WebGLRenderTarget.id (Reflector.renderTarget scope))
    /\ WebGLRenderer.call_xrEnabled call = WebGLRenderer.xr_enabled renderer
    /\ WebGLRenderer.call_shadowAutoUpdate call
       = WebGLRenderer.shadowMap_autoUpdate renderer
    /\ WebGLRenderer.xr_enabled renderer' = WebGLRenderer.xr_enabled renderer
    /\ WebGLRenderer.shadowMap_autoUpdate renderer'
       = WebGLRenderer.shadowMap_autoUpdate renderer
    /\ WebGLRenderer.currentRenderTarget renderer' = None.
Proof.
  intros H. enter_frame H. renderer_steps setRenderTarget_fields.
  eexists. split; [ reflexivity | ]. mirror_fields. repeat split.
Qed.

End FrameFacts.

(** ** The floor mirror, frame by frame *)


(** The frame of the scenario is not skipped: the camera is above the floor. *)
Lemma scenario_not_skipped : skipped Scenario.mirror Scenario.camera = false.
Proof. vm_compute. reflexivity. Qed.



(** C2 on the floor mirror, at the element 5. *)
Lemma oblique_clip_replaces_third_row_floor :
  skipped Scenario.mirror Scenario.camera = false
  /\ Matrix4.elements
       (PerspectiveCamera.projectionMatrix
          (Reflector.camera
             (scopeAfter Scenario.mirror Scenario.renderer Scenario.scene
                Scenario.camera))) 5
     = Matrix4.elements (PerspectiveCamera.projectionMatrix Scenario.camera) 5.
Proof.
  split; [ exact scenario_not_skipped | ].
  apply (oblique_clip_replaces_third_row Scenario.mirror Scenario.renderer
           Scenario.scene Scenario.camera 5 scenario_not_skipped).
  reflexivity.
Defined.

(** C3 on the floor mirror. *)
Lemma oblique_clip_row_floor :
  skipped Scenario.mirror Scenario.camera = false
  /\ Reflector.q
       (Reflector.scratch
          (scopeAfter Scenario.mirror Scenario.renderer Scenario.scene Scenario.camera))
     = Oblique.q
         (viewSpacePlane Scenario.mirror Scenario.renderer Scenario.scene Scenario.camera)
         (PerspectiveCamera.projectionMatrix Scenario.camera).
Proof.
  split; [ exact scenario_not_skipped | ].
  apply (oblique_clip_row Scenario.mirror Scenario.renderer Scenario.scene
           Scenario.camera scenario_not_skipped).
Defined.

(** C4 fails as stated: on the floor mirror the texture matrix is not the
    product taken with the projection matrix of the offscreen render. *)
Lemma texture_matrix_not_from_render_projection :
  ~ texture_matrix_from_render_camera Scenario.mirror Scenario.renderer
      Scenario.scene Scenario.camera.
Proof.
  intros (call & Hcall & Ht).
  vm_compute in Hcall. injection Hcall as <-.
  apply (f_equal (fun m => Matrix4.elements m 6)) in Ht.
  vm_compute in Ht. discriminate Ht.
Qed.

(** C4 on the floor mirror. *)
Lemma texture_matrix_from_real_projection_floor :
  skipped Scenario.mirror Scenario.camera = false
  /\ exists call,
       offscreenCall Scenario.mirror Scenario.renderer Scenario.scene Scenario.camera
       = Some call
       /\ Reflector.textureMatrix
            (Reflector.scratch
               (scopeAfter Scenario.mirror Scenario.renderer Scenario.scene
                  Scenario.camera))
          = textureMatrixOf
              (PerspectiveCamera.projectionMatrix Scenario.camera)
              (PerspectiveCamera.matrixWorldInverse (WebGLRenderer.call_camera call))
              (Reflector.matrixWorld Scenario.mirror).
Proof.
  split; [ exact scenario_not_skipped | ].
  destruct (texture_matrix_from_real_projection Scenario.mirror Scenario.renderer
              Scenario.scene Scenario.camera scenario_not_skipped)
    as (call & Hcall & _ & Ht & _).
  exists call. split; [ exact Hcall | exact Ht ].
Defined.

(** C5 at a host with XR on, shadow maps updated automatically and the render
    target 7 bound: the offscreen render runs with both flags on, and the
    frame returns with no target bound. *)
Lemma offscreen_render_under_host_flags_floor :
  skipped Scenario.mirror Scenario.camera = false
  /\ WebGLRenderer.currentRenderTarget Scenario.renderer = Some 7%nat
  /\ exists call,
       offscreenCall Scenario.mirror Scenario.renderer Scenario.scene Scenario.camera
       = Some call
       /\ WebGLRenderer.call_xrEnabled call = true
       /\ WebGLRenderer.call_shadowAutoUpdate call = true
       /\ WebGLRenderer.currentRenderTarget
            (rendererAfter Scenario.mirror Scenario.renderer Scenario.scene
               Scenario.camera)
          = None.
Proof.
  split; [ exact scenario_not_skipped | ]. split; [ reflexivity | ].
  destruct (offscreen_render_under_host_flags Scenario.mirror Scenario.renderer
              Scenario.scene Scenario.camera scenario_not_skipped)
    as (call & Hcall & _ & Hxr & Hshadow & _ & _ & Htarget).
  exists call. repeat split; assumption.
Defined.



(** C7: the mirror lies in the plane y = 0 with world normal (0, 1, 0), the
    real camera is at (0, 5, 10) and looks at the origin; the frame puts the
    virtual camera at (0, -5, 10), and its up vector is the real camera's up
    vector reflected in the plane and not negated: the components along the
    plane are kept and the component along the normal changes sign. *)
Theorem floor_mirror_virtual_camera :
  let scope' :=
    scopeAfter Scenario.mirror Scenario.renderer Scenario.scene Scenario.camera in
  let cameraUp :=
    Matrix4.applyToVector3 (Vector3.set 0 1 0)
      (Matrix4.extractRotation (PerspectiveCamera.matrixWorld Scenario.camera)) in
  let virtualUp := PerspectiveCamera.up (Reflector.camera scope') in
  Matrix4.position (Reflector.matrixWorld Scenario.mirror) = Vector3.mk 0 0 0
  /\ Reflector.normal (Reflector.scratch scope') = Vector3.mk 0 1 0
  /\ Matrix4.position (PerspectiveCamera.matrixWorld Scenario.camera)
     = Vector3.mk 0 5 10
  /\ PerspectiveCamera.position (Reflector.camera scope') = Vector3.mk 0 (-5) 10
  /\ virtualUp = Vector3.reflect cameraUp (Vector3.mk 0 1 0)
  /\ virtualUp <> Vector3.negate (Vector3.reflect cameraUp (Vector3.mk 0 1 0))
  /\ Vector3.x virtualUp = Vector3.x cameraUp
  /\ Vector3.y virtualUp = (- Vector3.y cameraUp)%float
  /\ Vector3.z virtualUp = Vector3.z cameraUp
  /\ (0 <? Vector3.y cameraUp)%float = true.
Proof.
  vm_compute. repeat split. intros H. discriminate H.
Qed.

(** C8, what the program does: with the default shader the constructor
    succeeds and hands over the render target's texture, the tint and the
    texture matrix, but the uniform [opacity] keeps the shader's 0.3; the
    configured opacity only reaches the material's own [opacity] property. *)
Theorem opacity_uniform_keeps_shader_default
    (id geometry : nat) (virtualCamera : PerspectiveCamera.t)
    (renderTargetId materialId : nat) (options : Options.t) :
  Options.shader options = None ->
  exists scope,
    Reflector.constructor id geometry virtualCamera renderTargetId materialId options
    = Some scope
    /\ Reflector.uniform scope "opacity" = Some (inl (Uniform.Number 0.3))
    /\ ShaderMaterial.opacity (Reflector.material scope)
       = Options.number_or (Options.opacity options) 1
    /\ Reflector.uniform scope "tDiffuse" = Some (inl (Uniform.TextureOf renderTargetId))
    /\ Reflector.uniform scope "textureMatrix"
       = Some (inr (Reflector.textureMatrix (Reflector.scratch scope)))
    /\ exists c, Reflector.uniform scope "color" = Some (inl (Uniform.ColorValue c)).
Proof.
  intros H. unfold Reflector.constructor. rewrite H.
  eexists. split; [ vm_compute; reflexivity | ].
  repeat split. eexists. reflexivity.
Qed.

(** C8 at [{ opacity: 0.8 }]: the shader is handed 0.3. *)
Lemma opacity_uniform_keeps_shader_default_translucent :
  Options.shader Scenario.translucent = None
  /\ Options.opacity Scenario.translucent = Some 0.8%float
  /\ exists scope,
       Reflector.constructor 10 11 (Scenario.newPerspectiveCamera 2) 12 13
         Scenario.translucent
       = Some scope
       /\ Reflector.uniform scope "opacity" = Some (inl (Uniform.Number 0.3))
       /\ ShaderMaterial.opacity (Reflector.material scope) = 0.8%float.
Proof.
  split; [ reflexivity | ]. split; [ reflexivity | ].
  destruct (opacity_uniform_keeps_shader_default 10 11 (Scenario.newPerspectiveCamera 2)
              12 13 Scenario.translucent eq_refl)
    as (scope & Hscope & Huniform & Hopacity & _).
  exists scope. split; [ exact Hscope | ]. split; [ exact Huniform | ].
  rewrite Hopacity. reflexivity.
Defined.

(** ** The overlay blend of the shader *)

Section ShaderArithmetic.
Local Open Scope Z_scope.

(** A binary format: at least two bits of precision, and more exponents than
    bits. *)
Variables prec emax : Z.
Hypothesis Hprec : 2 <= prec.
Hypothesis Hemax : prec < emax.

Local Abbreviation fexp := (SpecFloat.fexp prec emax).
Local Abbreviation emin := (SpecFloat.emin prec emax).

Lemma digits2_log2 (m : positive) : Z.pos (digits2_pos m) = Z.log2 (Z.pos m) + 1.
Proof.
  assert (H : forall p, digits2_pos p = Pos.size p) by (induction p; simpl; congruence).
  destruct m; simpl; rewrite ?H; lia.
Qed.

Lemma Zdigits2_log2 (m : Z) : 0 < m -> Zdigits2 m = Z.log2 m + 1.
Proof. destruct m; try lia. intros _. apply digits2_log2. Qed.

Lemma Zdigits2_nonneg (m : Z) : 0 <= Zdigits2 m.
Proof. destruct m; simpl; lia. Qed.

Lemma Zdigits2_mono (a b : Z) : 0 <= a <= b -> Zdigits2 a <= Zdigits2 b.
Proof.
  intros [Ha Hab]. destruct (Z.eq_dec a 0) as [-> | Hne].
  - apply Zdigits2_nonneg.
  - rewrite !Zdigits2_log2 by lia. pose proof (Z.log2_le_mono a b Hab). lia.
Qed.

Lemma Zdigits2_succ (a : Z) : 0 <= a -> Zdigits2 (a + 1) <= Zdigits2 a + 1.
Proof.
  intros Ha. destruct (Z.eq_dec a 0) as [-> | Hne]; [ simpl; lia | ].
  rewrite !Zdigits2_log2 by lia. pose proof (Z.log2_succ_le a). unfold Z.succ in *. lia.
Qed.

Lemma digits2_shift (d m : positive) :
  digits2_pos (Pos.iter xO m d) = (digits2_pos m + d)%positive.
Proof.
  revert m. induction d as [d IH | d IH | ]; intros m; simpl; rewrite ?IH; lia.
Qed.

Lemma shr_1_digits (s : shr_record) :
  Zdigits2 (shr_m (shr_1 s)) = Z.max 0 (Zdigits2 (shr_m s) - 1).
Proof.
  destruct s as [m r t]. destruct m as [ | p | p ]; try destruct p; simpl; lia.
Qed.

Lemma shr_digits (p : positive) (s : shr_record) :
  Zdigits2 (shr_m (SpecFloat.iter_pos shr_1 p s)) = Z.max 0 (Zdigits2 (shr_m s) - Z.pos p).
Proof.
  revert s. induction p as [p IH | p IH | ]; intros s; simpl;
    rewrite ?IH, ?shr_1_digits; lia.
Qed.

Lemma shr_1_nonneg (s : shr_record) : 0 <= shr_m s -> 0 <= shr_m (shr_1 s).
Proof.
  destruct s as [m r t]. destruct m as [ | p | p ]; try destruct p; simpl; lia.
Qed.

Lemma shr_nonneg (p : positive) (s : shr_record) :
  0 <= shr_m s -> 0 <= shr_m (SpecFloat.iter_pos shr_1 p s).
Proof.
  revert s. induction p as [p IH | p IH | ]; intros s H; simpl;
    auto using shr_1_nonneg.
Qed.

Lemma round_nearest_even_bounds (m : Z) (l : location) :
  m <= round_nearest_even m l <= m + 1.
Proof.
  destruct l as [ | [ | | ] ]; simpl; try lia. destruct (Z.even m); lia.
Qed.

(** One call of [shr_fexp] on a mantissa that is not negative. *)
Lemma shr_fexp_spec (m e : Z) (l : location) :
  0 <= m -> e <= fexp (Zdigits2 m + e) ->
  let '(s, e') := shr_fexp prec emax m e l in
  e' = fexp (Zdigits2 m + e)
  /\ 0 <= shr_m s
  /\ Zdigits2 (shr_m s) = Z.max 0 (Zdigits2 m + e - e').
Proof.
  intros Hm He. unfold shr_fexp, shr.
  assert (Hs : shr_m (shr_record_of_loc m l) = m)
    by (destruct l as [ | [ | | ] ]; reflexivity).
  destruct (fexp (Zdigits2 m + e) - e) as [ | p | p ] eqn:Hn; try lia.
  - rewrite Hs. pose proof (Zdigits2_nonneg m). repeat split; lia.
  - pose proof (shr_digits p (shr_record_of_loc m l)) as Hd.
    pose proof (shr_nonneg p (shr_record_of_loc m l)) as Hp.
    rewrite Hs in Hd, Hp. repeat split; lia.
Qed.

(** The result of rounding is a zero or a number of the format, when the
    number rounded is below [2 ^ emax / 2]. *)
Lemma binary_round_aux_valid (s : bool) (m : positive) (e : Z) :
  e <= fexp (Z.pos (digits2_pos m) + e) ->
  Z.pos (digits2_pos m) + e < emax ->
  match binary_round_aux prec emax s (Z.pos m) e loc_Exact with
  | S754_zero s' => s' = s
  | S754_finite s' m' e' => s' = s /\ bounded prec emax m' e' = true
  | _ => False
  end.
Proof.
  intros He Hmax. unfold binary_round_aux.
  pose proof (shr_fexp_spec (Z.pos m) e loc_Exact) as H1.
  destruct (shr_fexp prec emax (Z.pos m) e loc_Exact) as [s1 e1].
  destruct H1 as (He1 & Hs1 & Hd1); [ lia | exact He | ].
  set (r := round_nearest_even (shr_m s1) (loc_of_shr_record s1)).
  pose proof (round_nearest_even_bounds (shr_m s1) (loc_of_shr_record s1)) as Hr.
  fold r in Hr.
  assert (Hdr : Zdigits2 (shr_m s1) <= Zdigits2 r <= Zdigits2 (shr_m s1) + 1).
  { split; [ apply Zdigits2_mono; lia | ].
    etransitivity; [ apply (Zdigits2_mono r (shr_m s1 + 1)); lia | ].
    apply Zdigits2_succ; lia. }
  simpl Zdigits2 in He1, Hd1.
  pose proof (shr_fexp_spec r e1 loc_Exact) as H2.
  destruct (shr_fexp prec emax r e1 loc_Exact) as [s2 e2].
  destruct H2 as (He2 & Hs2 & Hd2); [ lia | unfold SpecFloat.fexp, SpecFloat.emin in *; lia | ].
  destruct (shr_m s2) as [ | m2 | m2 ] eqn:Hm2; [ reflexivity | | lia ].
  simpl Zdigits2 in Hd2.
  assert (Hle : e2 <= emax - prec)
    by (unfold SpecFloat.fexp, SpecFloat.emin in *; lia).
  apply Z.leb_le in Hle. rewrite Hle. split; [ reflexivity | ].
  unfold bounded, canonical_mantissa. rewrite Hle, andb_true_r.
  apply Z.eqb_eq. unfold SpecFloat.fexp, SpecFloat.emin in *. lia.
Qed.

Lemma binary_round_valid (s : bool) (m : positive) (e : Z) :
  Z.pos (digits2_pos m) + e < emax ->
  match binary_round prec emax s m e with
  | S754_zero s' => s' = s
  | S754_finite s' m' e' => s' = s /\ bounded prec emax m' e' = true
  | _ => False
  end.
Proof.
  intros Hmax. unfold binary_round, shl_align.
  destruct (fexp (Z.pos (digits2_pos m) + e) - e) as [ | d | d ] eqn:Hd;
    apply binary_round_aux_valid; rewrite ?digits2_shift; try lia.
  replace (Z.pos (digits2_pos m + d) + fexp (Z.pos (digits2_pos m) + e))
    with (Z.pos (digits2_pos m) + e) by lia.
  lia.
Qed.

(** Rounding a number of the format gives the number. *)
Lemma binary_round_aux_bounded (s : bool) (m : positive) (e : Z) :
  bounded prec emax m e = true ->
  binary_round_aux prec emax s (Z.pos m) e loc_Exact = S754_finite s m e.
Proof.
  unfold bounded, canonical_mantissa. intros [Hc He]%andb_true_iff.
  apply Z.eqb_eq in Hc.
  unfold binary_round_aux, shr_fexp. simpl Zdigits2. rewrite Hc, Z.sub_diag.
  simpl. rewrite Hc, Z.sub_diag. simpl. rewrite He. reflexivity.
Qed.

Lemma binary_round_bounded (s : bool) (m : positive) (e : Z) :
  bounded prec emax m e = true ->
  binary_round prec emax s m e = S754_finite s m e.
Proof.
  intros H. unfold binary_round, shl_align.
  pose proof H as [Hc He]%andb_true_iff. apply Z.eqb_eq in Hc.
  rewrite Hc, Z.sub_diag. now apply binary_round_aux_bounded.
Qed.

Lemma shr_shift (n m : positive) :
  SpecFloat.iter_pos shr_1 n (Build_shr_record (Z.pos (Pos.iter xO m n)) false false)
  = Build_shr_record (Z.pos m) false false.
Proof.
  revert m. induction n as [n IH | n IH | ]; intros m; simpl; rewrite ?IH; reflexivity.
Qed.

Lemma mul_shift (n m : positive) : (Pos.iter xO 1 n * m = Pos.iter xO m n)%positive.
Proof.
  apply Pos2Z.inj. rewrite Pos2Z.inj_mul.
  change (Z.pos (shift_pos n 1) * Z.pos m = Z.pos (shift_pos n m)).
  rewrite !shift_pos_correct. lia.
Qed.
Local Abbreviation zero := (S754_zero false).
Local Abbreviation regular := (Shader.regular prec emax).
Local Abbreviation shifted := Shader.shifted.
Local Abbreviation half := (Shader.exp2 prec (-1)).
Local Abbreviation one := (Shader.exp2 prec 0).
Local Abbreviation two := (Shader.exp2 prec 1).
Local Abbreviation mul := (SFmul prec emax).
Local Abbreviation sub := (SFsub prec emax).

Lemma exp2_digits : Z.pos (digits2_pos (Pos.iter xO xH (Z.to_pos (prec - 1)))) = prec.
Proof. rewrite digits2_shift. simpl. lia. Qed.

Lemma exp2_bounded (k : Z) :
  2 - emax <= k < emax ->
  bounded prec emax (Pos.iter xO xH (Z.to_pos (prec - 1))) (k - (prec - 1)) = true.
Proof.
  intros Hk. unfold bounded, canonical_mantissa. rewrite exp2_digits.
  apply andb_true_iff. split; [ apply Z.eqb_eq | apply Z.leb_le ];
    unfold fexp, emin; lia.
Qed.

(** Multiplying by a power of two moves the exponent, as long as the result
    is a number of the format. *)
Lemma mul_exp2 (k : Z) (s : bool) (m : positive) (e : Z) :
  bounded prec emax m (e + k) = true ->
  mul (Shader.exp2 prec k) (S754_finite s m e) = S754_finite s m (e + k).
Proof.
  unfold bounded, canonical_mantissa. intros [Hc He]%andb_true_iff.
  apply Z.eqb_eq in Hc.
  unfold Shader.exp2, SFmul. rewrite mul_shift.
  unfold binary_round_aux, shr_fexp. simpl Zdigits2. rewrite digits2_shift.
  replace (Z.pos (digits2_pos m + Z.to_pos (prec - 1)) + (k - (prec - 1) + e))
    with (Z.pos (digits2_pos m) + (e + k)) by lia.
  rewrite Hc.
  replace (e + k - (k - (prec - 1) + e)) with (Z.pos (Z.to_pos (prec - 1))) by lia.
  unfold shr, shr_record_of_loc. rewrite shr_shift.
  replace (k - (prec - 1) + e + Z.pos (Z.to_pos (prec - 1))) with (e + k) by lia.
  simpl. rewrite Hc, Z.sub_diag. simpl. rewrite He. reflexivity.
Qed.

Lemma mul_one (x : spec_float) : regular x -> mul one x = x.
Proof.
  destruct x as [s | s | | s m e]; simpl; intros H; try easy.
  change (mul one (S754_finite s m e) = S754_finite s m e).
  rewrite mul_exp2; rewrite Z.add_0_r; [ reflexivity | exact H ].
Qed.

Lemma mul_two_half : mul two half = one.
Proof.
  unfold Shader.exp2 at 2. rewrite mul_exp2.
  - unfold Shader.exp2. f_equal. lia.
  - replace (-1 - (prec - 1) + 1) with (0 - (prec - 1)) by lia.
    apply exp2_bounded. lia.
Qed.

Lemma sub_one_one : sub one one = zero.
Proof.
  unfold Shader.exp2, SFsub, shl_align. rewrite Z.min_id, Z.sub_diag. simpl.
  reflexivity.
Qed.

Lemma sub_one_half : sub one half = half.
Proof.
  unfold Shader.exp2, SFsub, shl_align.
  replace (Z.min (0 - (prec - 1)) (-1 - (prec - 1))) with (-1 - (prec - 1)) by lia.
  replace (-1 - (prec - 1) - (0 - (prec - 1))) with (-1) by lia.
  rewrite Z.sub_diag. simpl.
  set (m := Pos.iter xO xH (Z.to_pos (prec - 1))).
  replace (Z.pos m~0 - Z.pos m) with (Z.pos m) by lia.
  simpl. apply binary_round_bounded. apply exp2_bounded. lia.
Qed.

Lemma shl_align_digits (m : positive) (e e' : Z) :
  e' <= e ->
  Z.pos (digits2_pos (fst (shl_align m e e'))) + e' = Z.pos (digits2_pos m) + e.
Proof.
  intros H. unfold shl_align.
  destruct (e' - e) as [ | d | d ] eqn:Hd; simpl; rewrite ?digits2_shift; lia.
Qed.

(** The difference of two numbers of the format that have the same sign is a
    zero or a number of the format; here the first is 1 and the second lies
    between 0 and 1. *)
Lemma sub_one_regular (x : spec_float) :
  SpecFloat.valid_binary prec emax x = true ->
  SFleb zero x = true -> SFleb x one = true -> regular (sub one x).
Proof.
  destruct x as [s | s | | s m e].
  - intros _ _ _. simpl. apply exp2_bounded. lia.
  - intros _ H0 H1. destruct s; [ discriminate H0 | discriminate H1 ].
  - intros _ H0 _. discriminate H0.
  - intros Hv H0 H1. destruct s; [ discriminate H0 | ]. clear H0.
    assert (He : e <= 0 - (prec - 1)).
    { unfold SFleb, SFcompare, Shader.exp2 in H1.
      destruct (e ?= 0 - (prec - 1)) eqn:Hc; try discriminate H1.
      - apply Z.compare_eq in Hc. rewrite Hc. apply Z.le_refl.
      - apply Z.compare_lt_iff in Hc. apply Z.lt_le_incl, Hc. }
    clear H1. simpl in Hv.
    pose proof Hv as [Hc _]%andb_true_iff. apply Z.eqb_eq in Hc.
    unfold Shader.exp2, SFsub.
    replace (Z.min (0 - (prec - 1)) e) with e by lia.
    pose proof (shl_align_digits (Pos.iter xO xH (Z.to_pos (prec - 1)))
                  (0 - (prec - 1)) e He) as Ha.
    pose proof (shl_align_digits m e e (Z.le_refl e)) as Hb.
    rewrite exp2_digits in Ha.
    set (a := fst (shl_align (Pos.iter xO xH (Z.to_pos (prec - 1))) (0 - (prec - 1)) e))
      in *.
    set (b := fst (shl_align m e e)) in *.
    simpl cond_Zopp.
    destruct (Z.pos a - Z.pos b) as [ | p | p ] eqn:Hp; unfold binary_normalize;
      [ exact I | | ].
    + pose proof (binary_round_valid false p e) as H.
      pose proof (Zdigits2_mono (Z.pos p) (Z.pos a)) as Hm. simpl in Hm.
      assert (Hlt : Z.pos (digits2_pos p) + e < emax) by lia.
      specialize (H Hlt). unfold Shader.regular.
      destruct (binary_round prec emax false p e); tauto.
    + pose proof (binary_round_valid true p e) as H.
      pose proof (Zdigits2_mono (Z.pos p) (Z.pos b)) as Hm. simpl in Hm.
      unfold fexp, emin in Hc.
      assert (Hlt : Z.pos (digits2_pos p) + e < emax) by lia.
      specialize (H Hlt). unfold Shader.regular.
      destruct (binary_round prec emax true p e); tauto.
Qed.

(** Rounding a number of the format written with [k] more binary digits. *)
Lemma binary_round_aux_shift (s : bool) (m k : positive) (e : Z) :
  bounded prec emax m e = true ->
  binary_round_aux prec emax s (Z.pos (Pos.iter xO m k)) (e - Z.pos k) loc_Exact
  = S754_finite s m e.
Proof.
  unfold bounded, canonical_mantissa. intros [Hc He]%andb_true_iff.
  apply Z.eqb_eq in Hc.
  unfold binary_round_aux, shr_fexp. simpl Zdigits2. rewrite digits2_shift.
  replace (Z.pos (digits2_pos m + k) + (e - Z.pos k))
    with (Z.pos (digits2_pos m) + e) by lia.
  rewrite Hc.
  replace (e - (e - Z.pos k)) with (Z.pos k) by lia.
  unfold shr, shr_record_of_loc. rewrite shr_shift.
  replace (e - Z.pos k + Z.pos k) with e by lia.
  simpl. rewrite Hc, Z.sub_diag. simpl. rewrite He. reflexivity.
Qed.

Lemma shifted_value (m : positive) (k : Z) :
  0 <= k -> Z.pos (shifted m k) = Z.pos m * 2 ^ k.
Proof.
  destruct k as [ | k | k ]; simpl; try lia. intros _.
  change (Z.pos (shift_pos k m) = Z.pos m * Z.pow_pos 2 k).
  rewrite shift_pos_correct. lia.
Qed.

Lemma shifted_digits (m : positive) (k : Z) :
  0 <= k -> Z.pos (digits2_pos (shifted m k)) = Z.pos (digits2_pos m) + k.
Proof.
  destruct k as [ | k | k ]; simpl; try lia. intros _. rewrite digits2_shift. lia.
Qed.

Lemma shl_align_shifted (m : positive) (e e' : Z) :
  e' <= e -> shl_align m e e' = (shifted m (e - e'), e').
Proof.
  intros H. unfold shl_align, Shader.shifted.
  destruct (e' - e) as [ | d | d ] eqn:Hd; try lia.
  - replace (e - e') with 0 by lia. f_equal. lia.
  - replace (e - e') with (Z.pos d) by lia. reflexivity.
Qed.

(** Rounding does nothing to [m * 2 ^ e] when it is a number of the format
    written with an exponent that is too large or too small. *)
Lemma binary_round_up (s : bool) (m : positive) (e k : Z) :
  0 <= k -> bounded prec emax m e = true ->
  binary_round prec emax s (shifted m k) (e - k) = S754_finite s m e.
Proof.
  intros Hk Hb. pose proof Hb as [Hc He]%andb_true_iff.
  unfold canonical_mantissa in Hc. apply Z.eqb_eq in Hc.
  unfold binary_round. rewrite shifted_digits by exact Hk.
  replace (Z.pos (digits2_pos m) + k + (e - k)) with (Z.pos (digits2_pos m) + e) by lia.
  rewrite Hc. unfold shl_align.
  destruct k as [ | k | k ]; try lia.
  - replace (e - (e - 0)) with 0 by lia. rewrite Z.sub_0_r.
    now apply binary_round_aux_bounded.
  - replace (e - (e - Z.pos k)) with (Z.pos k) by lia.
    now apply binary_round_aux_shift.
Qed.

Lemma binary_round_down (s : bool) (m : positive) (e : Z) :
  let e' := fexp (Z.pos (digits2_pos m) + e) in
  e' <= e -> e' <= emax - prec ->
  binary_round prec emax s m e = S754_finite s (shifted m (e - e')) e'
  /\ bounded prec emax (shifted m (e - e')) e' = true.
Proof.
  intros e' He Hmax.
  assert (Hb : bounded prec emax (shifted m (e - e')) e' = true).
  { unfold bounded, canonical_mantissa. rewrite shifted_digits by lia.
    replace (Z.pos (digits2_pos m) + (e - e') + e') with (Z.pos (digits2_pos m) + e)
      by lia.
    fold e'. apply andb_true_iff. split; [ apply Z.eqb_eq | apply Z.leb_le ]; lia. }
  split; [ | exact Hb ].
  unfold binary_round. fold e'. rewrite shl_align_shifted by exact He.
  now apply binary_round_aux_bounded.
Qed.

Lemma exp2_mantissa : Z.pos (Pos.iter xO xH (Z.to_pos (prec - 1))) = 2 ^ (prec - 1).
Proof.
  change (Z.pos (shift_pos (Z.to_pos (prec - 1)) 1) = 2 ^ (prec - 1)).
  rewrite shift_pos_correct, Z.pow_pos_fold, Z2Pos.id by lia. lia.
Qed.

Lemma digits2_bound (m : positive) : Z.pos m < 2 ^ Z.pos (digits2_pos m).
Proof.
  rewrite digits2_log2. pose proof (Z.log2_spec (Z.pos m)). unfold Z.succ in *. lia.
Qed.

Lemma digits2_below (m : positive) (k : Z) :
  0 <= k -> Z.pos m < 2 ^ k -> Z.pos (digits2_pos m) <= k.
Proof.
  intros Hk H. rewrite digits2_log2.
  pose proof (Z.log2_lt_pow2 (Z.pos m) k). lia.
Qed.

(** Between one half and one, [1 - x] is computed without rounding, and so
    is [1 - (1 - x)]. *)
Lemma sub_one_sub_one (x : spec_float) :
  SpecFloat.valid_binary prec emax x = true ->
  SFleb half x = true -> SFleb x one = true -> sub one (sub one x) = x.
Proof.
  destruct x as [s | s | | s m e].
  - intros _ H _. discriminate H.
  - intros _ Hh H1. destruct s; [ discriminate Hh | discriminate H1 ].
  - intros _ H _. discriminate H.
  - intros Hv Hh H1. destruct s; [ discriminate Hh | ].
    simpl in Hv. pose proof Hv as [Hc Hb]%andb_true_iff.
    unfold canonical_mantissa in Hc. apply Z.eqb_eq in Hc. apply Z.leb_le in Hb.
    pose proof exp2_digits as HM. pose proof exp2_mantissa as HM2.
    pose proof (digits2_bound m) as Hm2.
    unfold SFleb, SFcompare, Shader.exp2 in Hh, H1.
    set (M := Pos.iter xO xH (Z.to_pos (prec - 1))) in *.
    change (PosDef.Pos.compare_cont Eq m M) with (Pos.compare m M) in H1.
    change (PosDef.Pos.compare_cont Eq M m) with (Pos.compare M m) in Hh.
    assert (Hpow : 2 ^ prec = 2 * 2 ^ (prec - 1)).
    { replace prec with (Z.succ (prec - 1)) at 1 by lia. apply Z.pow_succ_r. lia. }
    assert (Hdm : Z.pos (digits2_pos m) <= prec) by (unfold fexp, emin in Hc; lia).
    assert (Hlt : Z.pos m < 2 ^ prec).
    { eapply Z.lt_le_trans; [ exact Hm2 | ]. apply Z.pow_le_mono_r; lia. }
    destruct (Z.compare_spec e (0 - (prec - 1))) as [He | He | He];
      try discriminate H1.
    + (* x = 1 *)
      destruct (Pos.compare_spec m M) as [Hm | Hm | Hm]; try discriminate H1.
      * subst m e. change (S754_finite false M (0 - (prec - 1))) with one.
        rewrite sub_one_one. reflexivity.
      * exfalso.
        pose proof (digits2_below m (prec - 1)). unfold fexp, emin in Hc. lia.
    + (* one half <= x < 1 *)
      destruct (Z.compare_spec (-1 - (prec - 1)) e) as [He' | He' | He'];
        try discriminate Hh; [ | lia ].
      destruct (Pos.compare_spec M m) as [Hm | Hm | Hm]; try discriminate Hh;
        clear Hh H1 He.
      all: subst e.
      all: unfold Shader.exp2, SFsub; fold M.
      all: replace (Z.min (0 - (prec - 1)) (-1 - (prec - 1)))
             with (-1 - (prec - 1)) by lia.
      all: rewrite !shl_align_shifted by lia; cbn [fst cond_Zopp].
      all: replace (0 - (prec - 1) - (-1 - (prec - 1))) with 1 by lia.
      all: rewrite Z.sub_diag; cbn [Shader.shifted Pos.iter].
      all: destruct (Z.pos M~0 - Z.pos m) as [ | p | p ] eqn:Hp; try lia.
      all: cbn [binary_normalize].
      all: pose proof (digits2_below p prec) as Hdp.
      all: destruct (binary_round_down false p (-1 - (prec - 1))) as [-> Hy];
        [ unfold fexp, emin in *; lia | unfold fexp, emin in *; lia | ].
      all: set (e' := fexp (Z.pos (digits2_pos p) + (-1 - (prec - 1)))) in *.
      all: assert (He1 : e' <= -1 - (prec - 1)) by (unfold e', fexp, emin in *; lia).
      all: replace (Z.min (0 - (prec - 1)) e') with e' by lia.
      all: rewrite !shl_align_shifted by lia; cbn [fst cond_Zopp].
      all: rewrite Z.sub_diag; cbn [Shader.shifted].
      all: set (k := -1 - (prec - 1) - e') in *.
      all: replace (0 - (prec - 1) - e') with (Z.succ k) by lia.
      all: replace (Z.pos (shifted M (Z.succ k)) - Z.pos (shifted p k))
             with (Z.pos (shifted m k))
             by (rewrite !shifted_value, Z.pow_succ_r by lia;
                 rewrite <- Hp, (Pos2Z.inj_xO M);
                 generalize (2 ^ k) (Z.pos M) (Z.pos m); intros; ring).
      all: cbn [binary_normalize].
      all: replace e' with (-1 - (prec - 1) - k) by lia.
      all: apply binary_round_up; [ lia | ].
      all: apply andb_true_iff; split;
        [ unfold canonical_mantissa; apply Z.eqb_eq; exact Hc
        | apply Z.leb_le; exact Hb ].
Qed.
(** The three bases of the claim, with the subtractions as the format rounds
    them. *)
Lemma overlay_at_ends (x : spec_float) :
  SpecFloat.valid_binary prec emax x = true ->
  SFleb zero x = true -> SFleb x one = true ->
  SFeqb (Shader.blendOverlay prec emax zero x) zero = true
  /\ Shader.blendOverlay prec emax one x = one
  /\ Shader.blendOverlay prec emax half x = sub one (sub one x).
Proof.
  intros Hv H0 H1. pose proof (sub_one_regular x Hv H0 H1) as Hr.
  unfold Shader.blendOverlay, Shader.half, Shader.one, Shader.two.
  split; [ | split ].
  - change (SFltb zero half) with true. cbv iota.
    destruct x as [s | s | | s m e]; [ reflexivity | | discriminate H0 | reflexivity ].
    destruct s; [ discriminate H0 | discriminate H1 ].
  - replace (SFltb one half) with false.
    + rewrite sub_one_one.
      change (mul two zero) with zero.
      destruct (sub one x) as [s | s | | s m e]; try contradiction; reflexivity.
    + unfold SFltb, SFcompare, Shader.exp2.
      replace (0 - (prec - 1) ?= -1 - (prec - 1)) with Gt; [ reflexivity | ].
      symmetry. apply Z.compare_gt_iff. lia.
  - replace (SFltb half half) with false.
    + rewrite sub_one_half, mul_two_half, mul_one by exact Hr. reflexivity.
    + unfold SFltb, SFcompare, Shader.exp2.
      rewrite Z.compare_refl, Pos.compare_cont_refl. reflexivity.
Qed.

(** C9, as the shader computes it.  In a binary floating-point format with at
    least two bits of precision, for every number [x] of the format between 0
    and 1: the overlay blend of the base 0 with [x] equals 0 and that of the
    base 1 is 1; the overlay blend of the base one half is [1 - (1 - x)] with
    both subtractions rounded to the format, and it is [x] itself when [x] is
    at least one half, where neither subtraction rounds.  Below one half it
    need not be [x]. *)
Theorem blendOverlay_endpoints_rounded (x : spec_float) :
  SpecFloat.valid_binary prec emax x = true ->
  SFleb zero x = true -> SFleb x (Shader.one prec) = true ->
  SFeqb (Shader.blendOverlay prec emax zero x) zero = true
  /\ Shader.blendOverlay prec emax (Shader.one prec) x = Shader.one prec
  /\ Shader.blendOverlay prec emax (Shader.half prec) x
     = SFsub prec emax (Shader.one prec) (SFsub prec emax (Shader.one prec) x)
  /\ (SFleb (Shader.half prec) x = true ->
      Shader.blendOverlay prec emax (Shader.half prec) x = x).
Proof.
  intros Hv H0 H1. destruct (overlay_at_ends x Hv H0 H1) as (Hzero & Hone & Hhalf).
  split; [ exact Hzero | ]. split; [ exact Hone | ]. split; [ exact Hhalf | ].
  intros H. etransitivity; [ exact Hhalf | ]. now apply sub_one_sub_one.
Qed.
End ShaderArithmetic.

(** C9 in binary32, at [x = 0.75]. *)
Lemma blendOverlay_endpoints_rounded_binary32 :
  (2 <= 24)%Z /\ (24 < 128)%Z
  /\ SpecFloat.valid_binary 24 128 Scenario.threeQuarters32 = true
  /\ SFleb (S754_zero false) Scenario.threeQuarters32 = true
  /\ SFleb Scenario.threeQuarters32 (Shader.one 24) = true
  /\ SFleb (Shader.half 24) Scenario.threeQuarters32 = true
  /\ SFeqb (Shader.blendOverlay 24 128 (S754_zero false) Scenario.threeQuarters32)
       (S754_zero false) = true
  /\ Shader.blendOverlay 24 128 (Shader.one 24) Scenario.threeQuarters32
     = Shader.one 24
  /\ Shader.blendOverlay 24 128 (Shader.half 24) Scenario.threeQuarters32
     = SFsub 24 128 (Shader.one 24)
         (SFsub 24 128 (Shader.one 24) Scenario.threeQuarters32)
  /\ Shader.blendOverlay 24 128 (Shader.half 24) Scenario.threeQuarters32
     = Scenario.threeQuarters32.
Proof.
  assert (Hprec : (2 <= 24)%Z) by lia.
  assert (Hemax : (24 < 128)%Z) by lia.
  assert (Hv : SpecFloat.valid_binary 24 128 Scenario.threeQuarters32 = true)
    by (vm_compute; reflexivity).
  assert (H0 : SFleb (S754_zero false) Scenario.threeQuarters32 = true)
    by (vm_compute; reflexivity).
  assert (H1 : SFleb Scenario.threeQuarters32 (Shader.one 24) = true)
    by (vm_compute; reflexivity).
  assert (Hh : SFleb (Shader.half 24) Scenario.threeQuarters32 = true)
    by (vm_compute; reflexivity).
  destruct (blendOverlay_endpoints_rounded 24 128 Hprec Hemax
              Scenario.threeQuarters32 Hv H0 H1) as (Hzero & Hone & Hhalf & Hx).
  split; [ exact Hprec | ]. split; [ exact Hemax | ]. split; [ exact Hv | ].
  split; [ exact H0 | ]. split; [ exact H1 | ]. split; [ exact Hh | ].
  split; [ exact Hzero | ]. split; [ exact Hone | ]. split; [ exact Hhalf | ].
  exact (Hx Hh).
Defined.

(** C9 fails as stated, in binary32 and in binary64: the overlay of [0.1] on
    the base one half is [1 - (1 - 0.1)] with the inner subtraction rounded,
    which is not [0.1]. *)
Lemma blendOverlay_of_one_half_rounds :
  ~ overlay_identities 24 128 /\ ~ overlay_identities 53 1024.
Proof.
  split; intros H.
  - destruct (H Scenario.tenth32) as (_ & _ & Hx); try (vm_compute; reflexivity).
    vm_compute in Hx. discriminate Hx.
  - destruct (H Scenario.tenth64) as (_ & _ & Hx); try (vm_compute; reflexivity).
    vm_compute in Hx. discriminate Hx.
Qed.

(** The same in the numbers themselves: in binary32 the overlay of [0.1] on
    one half is three units in the last place above [0.1], and in binary64,
    read back as a JavaScript number, it is 0.099999999999999978. *)
Lemma blendOverlay_of_one_half_at_tenth :
  Shader.blendOverlay 24 128 (Shader.half 24) Scenario.tenth32
  = S754_finite false 13421776%positive (-27)%Z
  /\ SF2Prim (Shader.blendOverlay 53 1024 (Shader.half 53) Scenario.tenth64)
     = 0.099999999999999978%float
  /\ SF2Prim Scenario.tenth64 = 0.1%float
  /\ (0.099999999999999978 <? 0.1)%float = true.
Proof. repeat split; vm_compute; reflexivity. Qed.

(** ** Disposal *)

Section Disposal.
Import EventDispatcher.

Implicit Types (r : WebGLRenderer.t) (id : nat).

(** The object [id] has no listener left. *)
Local Abbreviation quiet r id :=
  (WebGLRenderer.listeners r !! id = None \/ WebGLRenderer.listeners r !! id = Some []).

(** Calling the listeners of a copy of the array of the object [id], when
    that array is the one the renderer has for [id]. *)
Lemma call_listeners (array : list listener) : forall r id,
  WebGLRenderer.listeners r !! id = Some array ->
  fold_left (fun r l => WebGLRenderer.call r id l) array r
  = WebGLRenderer.mk (WebGLRenderer.currentRenderTarget r) (WebGLRenderer.xr_enabled r)
      (WebGLRenderer.shadowMap_autoUpdate r) (WebGLRenderer.currentBlending r)
      (if decide (onRenderTargetDispose ∈ array)
       then WebGLRenderer.renderTargets r ∖ {[ id ]} else WebGLRenderer.renderTargets r)
      (if decide (onMaterialDispose ∈ array)
       then WebGLRenderer.materials r ∖ {[ id ]} else WebGLRenderer.materials r)
      (<[ id := [] ]> (WebGLRenderer.listeners r))
      (WebGLRenderer.calls r).
Proof.
  induction array as [| l array IH]; intros r id Hid.
  - cbn. destruct r as [t x s b ts ms ls cs]. cbn in *.
    rewrite insert_id by exact Hid.
    rewrite !decide_False by (intros Hin; inversion Hin). reflexivity.
  - cbn [fold_left].
    assert (Hstep : WebGLRenderer.listeners (WebGLRenderer.call r id l) !! id = Some array).
    { unfold WebGLRenderer.call, removeEventListener. rewrite Hid.
      destruct l; cbn; rewrite lookup_insert_eq; cbn;
        rewrite decide_True by reflexivity; reflexivity. }
    rewrite (IH _ _ Hstep).
    unfold WebGLRenderer.call, removeEventListener. rewrite Hid.
    destruct r as [t x s b ts ms ls cs].
    destruct l; cbn; rewrite insert_insert_eq; f_equal.
    all: repeat case_decide; set_solver.
Qed.

Lemma dispatchEvent_quiet r id : quiet (WebGLRenderer.dispatchEvent r id) id.
Proof.
  unfold WebGLRenderer.dispatchEvent.
  destruct (WebGLRenderer.listeners r !! id) as [array | ] eqn:Hid.
  - right. rewrite (call_listeners array r id Hid). cbn. apply lookup_insert_eq.
  - left. exact Hid.
Qed.

Lemma dispatchEvent_other r id id' :
  id' <> id ->
  WebGLRenderer.listeners (WebGLRenderer.dispatchEvent r id) !! id'
  = WebGLRenderer.listeners r !! id'.
Proof.
  intros Hne. unfold WebGLRenderer.dispatchEvent.
  destruct (WebGLRenderer.listeners r !! id) as [array | ] eqn:Hid; [ | reflexivity ].
  rewrite (call_listeners array r id Hid). cbn. now apply lookup_insert_ne.
Qed.

(** An event on an object without listeners changes nothing. *)
Lemma dispatchEvent_nothing r id : quiet r id -> WebGLRenderer.dispatchEvent r id = r.
Proof.
  unfold WebGLRenderer.dispatchEvent. intros [-> | ->]; reflexivity.
Qed.

Lemma quiet_dispatchEvent r id id' :
  quiet r id -> quiet (WebGLRenderer.dispatchEvent r id') id.
Proof.
  intros Hq. destruct (decide (id = id')) as [-> | Hne].
  - apply dispatchEvent_quiet.
  - now rewrite (dispatchEvent_other r id' id Hne).
Qed.

(** An event never makes the renderer hold more. *)
Lemma dispatchEvent_shrinks r id :
  WebGLRenderer.renderTargets (WebGLRenderer.dispatchEvent r id)
    ⊆ WebGLRenderer.renderTargets r
  /\ WebGLRenderer.materials (WebGLRenderer.dispatchEvent r id)
      ⊆ WebGLRenderer.materials r.
Proof.
  unfold WebGLRenderer.dispatchEvent.
  destruct (WebGLRenderer.listeners r !! id) as [array | ] eqn:Hid; [ | done ].
  rewrite (call_listeners array r id Hid). cbn.
  split; case_decide; set_solver.
Qed.

(** The event frees what the renderer holds for the object. *)
Lemma dispatchEvent_releases r id :
  WebGLRenderer.listening r ->
  (id ∉ WebGLRenderer.renderTargets (WebGLRenderer.dispatchEvent r id))
  /\ (id ∉ WebGLRenderer.materials (WebGLRenderer.dispatchEvent r id)).
Proof.
  intros [Htargets Hmaterials]. unfold WebGLRenderer.dispatchEvent.
  destruct (WebGLRenderer.listeners r !! id) as [array | ] eqn:Hid.
  - rewrite (call_listeners array r id Hid). cbn.
    split; case_decide as Hin; try set_solver; intros Hheld.
    all: first [ destruct (Htargets id Hheld) as (array' & Harray & Hl)
               | destruct (Hmaterials id Hheld) as (array' & Harray & Hl) ];
      congruence.
  - split; intros Hheld.
    + destruct (Htargets id Hheld) as (array' & Harray & _). congruence.
    + destruct (Hmaterials id Hheld) as (array' & Harray & _). congruence.
Qed.

Lemma listening_dispatchEvent r id :
  WebGLRenderer.listening r -> WebGLRenderer.listening (WebGLRenderer.dispatchEvent r id).
Proof.
  intros Hr.
  destruct (dispatchEvent_releases r id Hr) as [Ht Hm].
  destruct (dispatchEvent_shrinks r id) as [Hts Hms].
  destruct Hr as [Htargets Hmaterials].
  split; intros id' Hheld.
  - assert (Hne : id' <> id) by (intros ->; contradiction).
    rewrite (dispatchEvent_other r id id' Hne). apply Htargets. set_solver.
  - assert (Hne : id' <> id) by (intros ->; contradiction).
    rewrite (dispatchEvent_other r id id' Hne). apply Hmaterials. set_solver.
Qed.

(** C10: when the renderer listens for the disposal of what it holds, it
    holds nothing for the mirror's render target or for its material after
    [dispose]; and a second [dispose] returns and leaves the renderer as the
    first one left it, listeners or not. *)
Theorem dispose_twice (scope : Reflector.t) (renderer : WebGLRenderer.t) :
  WebGLRenderer.listening renderer ->
  let released := Reflector.dispose scope renderer in
  (WebGLRenderTarget.id (Reflector.renderTarget scope)
     ∉ WebGLRenderer.renderTargets released)
  /\ (ShaderMaterial.id (Reflector.material scope)
        ∉ WebGLRenderer.materials released)
  /\ Reflector.dispose scope released = released.
Proof.
  intros Hr. unfold Reflector.dispose, ShaderMaterial.dispose, WebGLRenderTarget.dispose.
  set (target := WebGLRenderTarget.id (Reflector.renderTarget scope)).
  set (material := ShaderMaterial.id (Reflector.material scope)).
  set (r1 := WebGLRenderer.dispatchEvent renderer target).
  cbv zeta. split; [ | split ].
  - destruct (dispatchEvent_releases renderer target Hr) as [Ht _].
    destruct (dispatchEvent_shrinks r1 material) as [Hts _].
    intros Hheld. apply Ht, Hts, Hheld.
  - apply dispatchEvent_releases. now apply listening_dispatchEvent.
  - rewrite (dispatchEvent_nothing _ target).
    + apply dispatchEvent_nothing, dispatchEvent_quiet.
    + apply quiet_dispatchEvent, dispatchEvent_quiet.
Qed.

(** Setting up a render target keeps the renderer listening. *)
Lemma listening_setRenderTarget r (renderTarget : option nat) :
  WebGLRenderer.listening r ->
  WebGLRenderer.listening (WebGLRenderer.setRenderTarget r renderTarget).
Proof.
  intros [Htargets Hmaterials].
  unfold WebGLRenderer.setRenderTarget.
  destruct renderTarget as [id | ]; [ | split; assumption ].
  destruct (decide (id ∈ WebGLRenderer.renderTargets r)); [ split; assumption | ].
  unfold WebGLRenderer.listening, WebGLRenderer.setupRenderTarget, addEventListener. cbn.
  split; intros id' Hheld.
  - destruct (decide (id' = id)) as [-> | Hne].
    + destruct (WebGLRenderer.listeners r !! id) as [array | ] eqn:Hid.
      * case_decide as Hin.
        -- exists array. split; assumption.
        -- exists (array ++ [ onRenderTargetDispose ]). rewrite lookup_insert_eq.
           split; [ reflexivity | set_solver ].
      * exists [ onRenderTargetDispose ]. rewrite lookup_insert_eq.
        split; [ reflexivity | set_solver ].
    + assert (Hold : id' ∈ WebGLRenderer.renderTargets r) by set_solver.
      destruct (Htargets id' Hold) as (array' & Harray & Hl).
      exists array'. split; [ | exact Hl ].
      destruct (WebGLRenderer.listeners r !! id); [ case_decide | ];
        rewrite ?lookup_insert_ne by congruence; exact Harray.
  - destruct (Hmaterials id' Hheld) as (array' & Harray & Hl).
    destruct (decide (id' = id)) as [-> | Hne].
    + rewrite Harray. case_decide.
      * exists array'. split; assumption.
      * exists (array' ++ [ onRenderTargetDispose ]). rewrite lookup_insert_eq.
        split; [ reflexivity | set_solver ].
    + exists array'. split; [ | exact Hl ].
      destruct (WebGLRenderer.listeners r !! id); [ case_decide | ];
        rewrite ?lookup_insert_ne by congruence; exact Harray.
Qed.

(** So does the first draw with a material. *)
Lemma listening_initMaterial r id :
  WebGLRenderer.listening r -> WebGLRenderer.listening (WebGLRenderer.initMaterial r id).
Proof.
  intros [Htargets Hmaterials].
  unfold WebGLRenderer.initMaterial.
  destruct (decide (id ∈ WebGLRenderer.materials r)); [ split; assumption | ].
  unfold WebGLRenderer.listening, addEventListener. cbn.
  split; intros id' Hheld.
  - destruct (Htargets id' Hheld) as (array' & Harray & Hl).
    destruct (decide (id' = id)) as [-> | Hne].
    + rewrite Harray. case_decide.
      * exists array'. split; assumption.
      * exists (array' ++ [ onMaterialDispose ]). rewrite lookup_insert_eq.
        split; [ reflexivity | set_solver ].
    + exists array'. split; [ | exact Hl ].
      destruct (WebGLRenderer.listeners r !! id); [ case_decide | ];
        rewrite ?lookup_insert_ne by congruence; exact Harray.
  - destruct (decide (id' = id)) as [-> | Hne].
    + destruct (WebGLRenderer.listeners r !! id) as [array | ] eqn:Hid.
      * case_decide as Hin.
        -- exists array. split; assumption.
        -- exists (array ++ [ onMaterialDispose ]). rewrite lookup_insert_eq.
           split; [ reflexivity | set_solver ].
      * exists [ onMaterialDispose ]. rewrite lookup_insert_eq.
        split; [ reflexivity | set_solver ].
    + assert (Hold : id' ∈ WebGLRenderer.materials r) by set_solver.
      destruct (Hmaterials id' Hold) as (array' & Harray & Hl).
      exists array'. split; [ | exact Hl ].
      destruct (WebGLRenderer.listeners r !! id); [ case_decide | ];
        rewrite ?lookup_insert_ne by congruence; exact Harray.
Qed.

(** And so does a frame of the mirror. *)
Lemma listening_frame (scope : Reflector.t) r (scene : Scene)
    (camera : PerspectiveCamera.t) :
  WebGLRenderer.listening r ->
  WebGLRenderer.listening (rendererAfter scope r scene camera).
Proof.
  intros Hr.
  destruct (skipped scope camera) eqn:H.
  - enter_frame H. exact Hr.
  - pose proof (listening_setRenderTarget r
                  (Some (WebGLRenderTarget.id (Reflector.renderTarget scope))) Hr) as Hbound.
    enter_frame H. revert Hbound. renderer_steps setRenderTarget_fields.
    intros Hbound. exact Hbound.
Qed.

(** The host of the scenario listens for the disposal of its target 7. *)
Lemma scenario_listening : WebGLRenderer.listening Scenario.renderer.
Proof.
  split; intros id Hheld; cbn in Hheld.
  - apply elem_of_singleton in Hheld as ->.
    exists [ onRenderTargetDispose ]. split; [ reflexivity | set_solver ].
  - set_solver.
Qed.

(** C10 after a frame of the floor mirror and a draw of the mirror: the
    renderer holds the mirror's target and material before [dispose], and
    neither after it. *)
Lemma dispose_twice_floor :
  (WebGLRenderer.listening Scenario.rendererAfterDraw
   /\ 12%nat ∈ WebGLRenderer.renderTargets Scenario.rendererAfterDraw
   /\ 13%nat ∈ WebGLRenderer.materials Scenario.rendererAfterDraw)
  /\ (12%nat ∉ WebGLRenderer.renderTargets
                (Reflector.dispose Scenario.mirror Scenario.rendererAfterDraw))
  /\ (13%nat ∉ WebGLRenderer.materials
                (Reflector.dispose Scenario.mirror Scenario.rendererAfterDraw))
  /\ Reflector.dispose Scenario.mirror
       (Reflector.dispose Scenario.mirror Scenario.rendererAfterDraw)
     = Reflector.dispose Scenario.mirror Scenario.rendererAfterDraw.
Proof.
  assert (H : WebGLRenderer.listening Scenario.rendererAfterDraw)
    by (apply listening_initMaterial, listening_frame, scenario_listening).
  split; [ split; [ exact H | split; vm_compute; reflexivity ] | ].
  exact (dispose_twice Scenario.mirror Scenario.rendererAfterDraw H).
Defined.
End Disposal.

(** * Further properties of the program *)

(** ** The constructor *)

Section Construction.
Local Open Scope float_scope.

Variables (id geometry : nat) (virtualCamera : PerspectiveCamera.t).
Variables (renderTargetId materialId : nat) (options : Options.t).

Local Abbreviation shader := (default Reflector.ReflectorShader (Options.shader options)).
Local Abbreviation built :=
  (Reflector.constructor id geometry virtualCamera renderTargetId materialId options).

(** What a construction that does not throw returns. *)
Lemma constructor_Some (scope : Reflector.t) :
  built = Some scope ->
  (is_Some (Shader.uniforms shader !! "tDiffuse")
   /\ is_Some (Shader.uniforms shader !! "color")
   /\ is_Some (Shader.uniforms shader !! "textureMatrix"))
  /\ ShaderMaterial.uniforms (Reflector.material scope)
     = <[ "textureMatrix" := Uniform.TextureMatrixRef ]>
         (<[ "color" := Uniform.ColorValue
                          (Color.mk (default 0x7F7F7F%Z (Options.color options))) ]>
            (<[ "tDiffuse" := Uniform.TextureOf renderTargetId ]>
               (Shader.uniforms shader)))
  /\ Reflector.renderTarget scope
     = WebGLRenderTarget.mk renderTargetId
         (Options.number_or (Options.textureWidth options) 512)
         (Options.number_or (Options.textureHeight options) 512)
  /\ ShaderMaterial.opacity (Reflector.material scope)
     = Options.number_or (Options.opacity options) 1
  /\ ShaderMaterial.transparent (Reflector.material scope)
     = default true (Options.transparent options)
  /\ Reflector.clipBias (Reflector.scratch scope)
     = Options.number_or (Options.clipBias options) 0.
Proof.
  unfold Reflector.constructor, Uniform.setValue. cbv zeta.
  unfold UniformsUtils.clone, WebGLRenderTarget.texture. cbn.
  destruct (Shader.uniforms shader !! "tDiffuse") as [a | ] eqn:Ha; cbn; [ | discriminate ].
  rewrite lookup_insert_ne by discriminate.
  destruct (Shader.uniforms shader !! "color") as [b | ] eqn:Hb; cbn; [ | discriminate ].
  rewrite !lookup_insert_ne by discriminate.
  destruct (Shader.uniforms shader !! "textureMatrix") as [c | ] eqn:Hc; cbn;
    [ | discriminate ].
  intros [= <-]. cbn.
  split; [ repeat split; eexists; reflexivity | ].
  destruct (Options.color options); repeat split.
Qed.

(** A construction throws only at one of its three uniform assignments. *)
Lemma constructor_None :
  built = None ->
  Shader.uniforms shader !! "tDiffuse" = None
  \/ Shader.uniforms shader !! "color" = None
  \/ Shader.uniforms shader !! "textureMatrix" = None.
Proof.
  unfold Reflector.constructor, Uniform.setValue. cbv zeta.
  unfold UniformsUtils.clone, WebGLRenderTarget.texture. cbn.
  destruct (Shader.uniforms shader !! "tDiffuse") as [a | ] eqn:Ha; cbn; [ | auto ].
  rewrite lookup_insert_ne by discriminate.
  destruct (Shader.uniforms shader !! "color") as [b | ] eqn:Hb; cbn; [ | auto ].
  rewrite !lookup_insert_ne by discriminate.
  destruct (Shader.uniforms shader !! "textureMatrix") as [c | ] eqn:Hc; cbn; [ | auto ].
  discriminate.
Qed.

(** [p || d] is never zero or NaN when [d] is not. *)
Lemma number_or_truthy (p : option float) (d : float) :
  Math.falsy d = false -> Math.falsy (Options.number_or p d) = false.
Proof.
  intros Hd. unfold Options.number_or, Math.or_else.
  destruct p as [v | ]; [ | exact Hd ].
  destruct (Math.falsy v) eqn:Hv; [ exact Hd | exact Hv ].
Qed.

(** X1: the constructor returns a mirror exactly when the shader it is given
    (or the default one) declares the uniforms [tDiffuse], [color] and
    [textureMatrix]; with any of them missing the assignment of its [value]
    throws. *)
Theorem constructor_needs_three_uniforms :
  is_Some built
  <-> forall name, name ∈ assignedUniforms -> is_Some (Shader.uniforms shader !! name).
Proof.
  split.
  - intros [scope Hscope].
    destruct (constructor_Some scope Hscope) as [(Ha & Hb & Hc) _].
    intros name Hname. unfold assignedUniforms in Hname.
    repeat (apply elem_of_cons in Hname as [-> | Hname]; [ assumption | ]).
    inversion Hname.
  - intros Hall. destruct built as [scope | ] eqn:Hbuilt; [ eauto | ].
    destruct (constructor_None Hbuilt) as [H | [H | H]].
    + destruct (Hall "tDiffuse") as [v Hv]; [ set_solver | congruence ].
    + destruct (Hall "color") as [v Hv]; [ set_solver | congruence ].
    + destruct (Hall "textureMatrix") as [v Hv]; [ set_solver | congruence ].
Qed.


(** X3: the width and the height of the render target are never zero or NaN:
    a size option that is missing, zero or NaN gives 512, and any other number
    is taken as it is. *)
Theorem constructor_texture_size (scope : Reflector.t) :
  built = Some scope ->
  let target := Reflector.renderTarget scope in
  Math.falsy (WebGLRenderTarget.width target) = false
  /\ Math.falsy (WebGLRenderTarget.height target) = false
  /\ WebGLRenderTarget.width target
     = match Options.textureWidth options with
       | Some v => if Math.falsy v then 512 else v
       | None => 512
       end
  /\ WebGLRenderTarget.height target
     = match Options.textureHeight options with
       | Some v => if Math.falsy v then 512 else v
       | None => 512
       end.
Proof.
  intros Hbuilt.
  destruct (constructor_Some _ Hbuilt) as (_ & _ & -> & _).
  cbn. repeat split; try (apply number_or_truthy; reflexivity).
Qed.

(** X4: the material's opacity is never zero or NaN: an opacity option of
    zero (or NaN) gives 1, any other number is kept; an explicit
    [transparent], [false] included, is kept; and [clipBias] is never NaN. *)
Theorem constructor_opacity_never_zero (scope : Reflector.t) :
  built = Some scope ->
  Math.falsy (ShaderMaterial.opacity (Reflector.material scope)) = false
  /\ (forall v, Options.opacity options = Some v -> Math.falsy v = true ->
      ShaderMaterial.opacity (Reflector.material scope) = 1)
  /\ (forall v, Options.opacity options = Some v -> Math.falsy v = false ->
      ShaderMaterial.opacity (Reflector.material scope) = v)
  /\ (forall b, Options.transparent options = Some b ->
      ShaderMaterial.transparent (Reflector.material scope) = b)
  /\ is_nan (Reflector.clipBias (Reflector.scratch scope)) = false.
Proof.
  intros Hbuilt.
  destruct (constructor_Some _ Hbuilt) as (_ & _ & _ & -> & -> & ->).
  split; [ apply number_or_truthy; reflexivity | ].
  split; [ intros v -> Hv; cbn; unfold Math.or_else; rewrite Hv; reflexivity | ].
  split; [ intros v -> Hv; cbn; unfold Math.or_else; rewrite Hv; reflexivity | ].
  split; [ intros b ->; reflexivity | ].
  unfold Options.number_or, Math.or_else.
  destruct (Options.clipBias options) as [v | ]; [ | reflexivity ].
  destruct (Math.falsy v) eqn:Hv; [ reflexivity | ].
  unfold Math.falsy in Hv. apply orb_false_elim in Hv as [_ Hv]. exact Hv.
Qed.
End Construction.

(** A shader without [color] cannot be given to the constructor. *)
Lemma constructor_throws_without_color :
  Reflector.constructor 10 11 (Scenario.newPerspectiveCamera 2) 12 13
    (Options.mk None None None None (Some Scenario.colourless) None None)
  = None.
Proof. vm_compute. reflexivity. Qed.


(** X3 at [{ textureWidth: 0, opacity: 0, transparent: false }]: the target
    is 512 wide. *)
Lemma constructor_texture_size_degenerate :
  exists scope,
    Reflector.constructor 10 11 (Scenario.newPerspectiveCamera 2) 12 13 Scenario.degenerate
    = Some scope
    /\ Options.textureWidth Scenario.degenerate = Some 0%float
    /\ WebGLRenderTarget.width (Reflector.renderTarget scope) = 512%float
    /\ WebGLRenderTarget.height (Reflector.renderTarget scope) = 512%float.
Proof.
  destruct (Reflector.constructor 10 11 (Scenario.newPerspectiveCamera 2) 12 13
              Scenario.degenerate) as [scope | ] eqn:Hbuilt;
    [ | vm_compute in Hbuilt; discriminate Hbuilt ].
  exists scope. split; [ reflexivity | ]. split; [ reflexivity | ].
  destruct (constructor_texture_size 10 11 (Scenario.newPerspectiveCamera 2) 12 13
              Scenario.degenerate scope Hbuilt) as (_ & _ & Hw & Hh).
  split; [ rewrite Hw | rewrite Hh ]; reflexivity.
Defined.

(** X4 at the same options: the opacity is 1 and the material is not
    transparent. *)
Lemma constructor_opacity_never_zero_degenerate :
  exists scope,
    Reflector.constructor 10 11 (Scenario.newPerspectiveCamera 2) 12 13 Scenario.degenerate
    = Some scope
    /\ Options.opacity Scenario.degenerate = Some 0%float
    /\ ShaderMaterial.opacity (Reflector.material scope) = 1%float
    /\ ShaderMaterial.transparent (Reflector.material scope) = false.
Proof.
  destruct (Reflector.constructor 10 11 (Scenario.newPerspectiveCamera 2) 12 13
              Scenario.degenerate) as [scope | ] eqn:Hbuilt;
    [ | vm_compute in Hbuilt; discriminate Hbuilt ].
  exists scope. split; [ reflexivity | ]. split; [ reflexivity | ].
  destruct (constructor_opacity_never_zero 10 11 (Scenario.newPerspectiveCamera 2) 12 13
              Scenario.degenerate scope Hbuilt) as (_ & Hzero & _ & Htransparent & _).
  split.
  - apply (Hzero 0%float); reflexivity.
  - apply Htransparent. reflexivity.
Defined.

(** ** What a frame keeps and what it forgets *)

Section FrameState.
Local Open Scope float_scope.


(** X7: after a frame that is not skipped the virtual camera is in step with
    itself: its quaternion looks from its position to the mirrored target
    with its up vector, its world matrix is composed from its position,
    quaternion and scale and carries the position, its inverse world matrix
    is the inverse of that matrix, and its far plane is the real camera's. *)
Theorem virtual_camera_in_step (scope : Reflector.t) (renderer : WebGLRenderer.t)
    (scene : Scene) (camera : PerspectiveCamera.t) :
  skipped scope camera = false ->
  let scope' := scopeAfter scope renderer scene camera in
  let c := Reflector.camera scope' in
  PerspectiveCamera.quaternion c
  = Matrix4.toQuaternion
      (Matrix4.lookAt Matrix4.identity (PerspectiveCamera.position c)
         (Reflector.target (Reflector.scratch scope')) (PerspectiveCamera.up c))
  /\ PerspectiveCamera.matrixWorld c
     = Matrix4.compose (PerspectiveCamera.position c) (PerspectiveCamera.quaternion c)
         (PerspectiveCamera.scale c)
  /\ PerspectiveCamera.matrix c = PerspectiveCamera.matrixWorld c
  /\ PerspectiveCamera.matrixWorldInverse c
     = Matrix4.invert (PerspectiveCamera.matrixWorld c)
  /\ Matrix4.position (PerspectiveCamera.matrixWorld c) = PerspectiveCamera.position c
  /\ PerspectiveCamera.far c = PerspectiveCamera.far camera.
Proof.
  intros H. enter_frame H.
  cbv beta iota zeta delta [Reflector.target].
  camera_steps. rewrite ?position_compose. repeat split.
Qed.
End FrameState.

(** X7 on the floor mirror. *)
Lemma virtual_camera_in_step_floor :
  let c :=
    Reflector.camera
      (scopeAfter Scenario.mirror Scenario.renderer Scenario.scene Scenario.camera) in
  skipped Scenario.mirror Scenario.camera = false
  /\ PerspectiveCamera.matrixWorldInverse c
     = Matrix4.invert (PerspectiveCamera.matrixWorld c)
  /\ PerspectiveCamera.far c = 1025%float.
Proof.
  cbv zeta. split; [ exact scenario_not_skipped | ].
  destruct (virtual_camera_in_step Scenario.mirror Scenario.renderer Scenario.scene
              Scenario.camera scenario_not_skipped) as (_ & _ & _ & Hinverse & _ & Hfar).
  split; [ exact Hinverse | rewrite Hfar; reflexivity ].
Defined.

(** ** What a frame does to the renderer *)

(** Binding a render target leaves the renderer holding resources for it. *)
Lemma setRenderTarget_allocates (r : WebGLRenderer.t) (id : nat) :
  exists listeners,
    WebGLRenderer.setRenderTarget r (Some id)
    = WebGLRenderer.mk (Some id) (WebGLRenderer.xr_enabled r)
        (WebGLRenderer.shadowMap_autoUpdate r) (WebGLRenderer.currentBlending r)
        ({[ id ]} ∪ WebGLRenderer.renderTargets r) (WebGLRenderer.materials r)
        listeners (WebGLRenderer.calls r).
Proof.
  unfold WebGLRenderer.setRenderTarget.
  destruct (decide (id ∈ WebGLRenderer.renderTargets r)) as [Hin | Hout].
  - eexists. f_equal. set_solver.
  - eexists. reflexivity.
Qed.

Section FrameRenderer.
Local Open Scope float_scope.

Variables (scope : Reflector.t) (renderer : WebGLRenderer.t).
Variables (scene : Scene) (camera : PerspectiveCamera.t).

Lemma frame_allocates :
  skipped scope camera = false ->
  WebGLRenderer.renderTargets (rendererAfter scope renderer scene camera)
  = {[ WebGLRenderTarget.id (Reflector.renderTarget scope) ]}
    ∪ WebGLRenderer.renderTargets renderer.
Proof.
  intros H. enter_frame H. renderer_steps_allocating setRenderTarget_allocates.
  reflexivity.
Qed.

End FrameRenderer.

(** ** The frame inside the render loop and the frame alone *)

(** The frame with its renders recorded only is the two halves of the hook
    one after the other, and the mirror made visible at the end. *)
Lemma frame_by_halves (scope : Reflector.t) (renderer : WebGLRenderer.t)
    (scene : Scene) (camera : PerspectiveCamera.t) :
  skipped scope camera = false ->
  scopeAfter scope renderer scene camera
  = Loop.set_visible (Loop.afterGuard (Loop.beforeGuard scope camera) camera) true.
Proof.
  intros H. enter_frame H. reflexivity.
Qed.

(** A skipped frame is the first half alone. *)
Lemma skipped_frame_by_halves (scope : Reflector.t) (renderer : WebGLRenderer.t)
    (scene : Scene) (camera : PerspectiveCamera.t) :
  skipped scope camera = true ->
  Reflector.onBeforeRender scope renderer scene camera
  = (renderer, Loop.beforeGuard scope camera).
Proof.
  intros H. enter_frame H. reflexivity.
Qed.

(** Compiling a material adds it to what the renderer holds and may add a
    listener; the rest of the renderer stays. *)
Lemma initMaterial_fields (r : WebGLRenderer.t) (id : nat) :
  exists listeners,
    WebGLRenderer.initMaterial r id
    = WebGLRenderer.mk (WebGLRenderer.currentRenderTarget r)
        (WebGLRenderer.xr_enabled r) (WebGLRenderer.shadowMap_autoUpdate r)
        (WebGLRenderer.currentBlending r) (WebGLRenderer.renderTargets r)
        ({[ id ]} ∪ WebGLRenderer.materials r) listeners (WebGLRenderer.calls r).
Proof.
  unfold WebGLRenderer.initMaterial.
  destruct (decide (id ∈ WebGLRenderer.materials r)) as [Hin | Hout].
  - exists (WebGLRenderer.listeners r). destruct r. cbn in *. f_equal. set_solver.
  - eexists. reflexivity.
Qed.

(** The offscreen render of the frame with its renders recorded only. *)
Lemma offscreenCall_by_halves (scope : Reflector.t) (renderer : WebGLRenderer.t)
    (scene : Scene) (camera : PerspectiveCamera.t) :
  skipped scope camera = false ->
  offscreenCall scope renderer scene camera
  = Some (WebGLRenderer.mkCall scene
            (Reflector.camera (Loop.afterGuard (Loop.beforeGuard scope camera) camera))
            (Some (WebGLRenderTarget.id (Reflector.renderTarget scope)))
            (WebGLRenderer.xr_enabled renderer)
            (WebGLRenderer.shadowMap_autoUpdate renderer) (Some 0%nat)
            (Reflector.visible scope)).
Proof.
  intros H. enter_frame H. renderer_steps setRenderTarget_fields. reflexivity.
Qed.

(** The guard reads the placement of the mirror, which the hook leaves. *)
Lemma afterGuard_skipped (scope : Reflector.t) (camera c : PerspectiveCamera.t) :
  skipped (Loop.afterGuard (Loop.beforeGuard scope camera) camera) c = skipped scope c.
Proof. reflexivity. Qed.

Lemma set_visible_camera (scope : Reflector.t) (b : bool) :
  Reflector.camera (Loop.set_visible scope b) = Reflector.camera scope.
Proof. reflexivity. Qed.

(** The two renders when the hook that the first one calls returns at its
    guard. *)
Lemma renders_when_nested_call_skips
    (hook : Reflector.t -> WebGLRenderer.t -> Scene -> PerspectiveCamera.t
            -> Loop.result)
    (scope : Reflector.t) (renderer : WebGLRenderer.t) (scene : Scene)
    (camera : PerspectiveCamera.t) :
  let blending :=
    (if ShaderMaterial.transparent (Reflector.material scope) then 1 else 0)%nat in
  (forall renderer,
     hook scope renderer scene (Reflector.camera scope)
     = (Loop.Returns,
        (renderer, Loop.beforeGuard scope (Reflector.camera scope)))) ->
  Reflector.visible scope = true ->
  PerspectiveCamera.id camera <> PerspectiveCamera.id (Reflector.camera scope) ->
  exists listeners,
    Loop.renders hook scope renderer scene camera
    = (Loop.Returns,
       (WebGLRenderer.mk None (WebGLRenderer.xr_enabled renderer)
          (WebGLRenderer.shadowMap_autoUpdate renderer) (Some blending)
          ({[ WebGLRenderTarget.id (Reflector.renderTarget scope) ]}
           ∪ WebGLRenderer.renderTargets renderer)
          ({[ ShaderMaterial.id (Reflector.material scope) ]}
           ∪ WebGLRenderer.materials renderer)
          listeners
          (WebGLRenderer.calls renderer
           ++ [ WebGLRenderer.mkCall scene (Reflector.camera scope)
                  (Some (WebGLRenderTarget.id (Reflector.renderTarget scope)))
                  (WebGLRenderer.xr_enabled renderer)
                  (WebGLRenderer.shadowMap_autoUpdate renderer) (Some 0%nat) true;
                WebGLRenderer.mkCall scene camera None
                  (WebGLRenderer.xr_enabled renderer)
                  (WebGLRenderer.shadowMap_autoUpdate renderer) (Some blending)
                  false ]),
        Loop.beforeGuard (Loop.set_visible scope true) (Reflector.camera scope))).
Proof.
  cbv zeta. intros Hhook Hv Hid.
  unfold Loop.renders, Loop.render. cbv zeta. rewrite Hv, Hhook.
  cbv beta iota. cbn [Loop.set_visible Reflector.visible].
  unfold Loop.current, Loop.draw. cbv zeta.
  cbn [Loop.set_visible Loop.beforeGuard Reflector.camera Reflector.material].
  apply Nat.eqb_neq in Hid. rewrite Hid.
  destruct (setRenderTarget_allocates renderer
              (WebGLRenderTarget.id (Reflector.renderTarget scope)))
    as (listeners & ->).
  cbv beta iota zeta delta [WebGLRenderer.state_setBlending WebGLRenderer.render
    WebGLRenderer.currentRenderTarget WebGLRenderer.xr_enabled
    WebGLRenderer.shadowMap_autoUpdate WebGLRenderer.currentBlending
    WebGLRenderer.renderTargets WebGLRenderer.materials WebGLRenderer.listeners
    WebGLRenderer.calls].
  match goal with
  | |- context [WebGLRenderer.initMaterial ?r ?id] =>
      destruct (initMaterial_fields r id) as (listeners' & ->)
  end.
  cbv beta iota zeta delta [fst snd WebGLRenderer.state_setBlending
    WebGLRenderer.render WebGLRenderer.setRenderTarget WebGLRenderer.set_xr_enabled
    WebGLRenderer.set_shadowMap_autoUpdate WebGLRenderer.getRenderTarget
    WebGLRenderer.currentRenderTarget WebGLRenderer.xr_enabled
    WebGLRenderer.shadowMap_autoUpdate WebGLRenderer.currentBlending
    WebGLRenderer.renderTargets WebGLRenderer.materials WebGLRenderer.listeners
    WebGLRenderer.calls].
  rewrite <- ?app_assoc.
  exists listeners'. reflexivity.
Qed.

(** The call of the hook on an ordinary frame: the mirror is visible, the
    camera is not the mirror's own, the frame is not skipped, and the call
    that the offscreen render makes, with the virtual camera, returns at its
    guard. *)
Lemma loop_frame_when_nested_call_skips (depth : nat) (scope : Reflector.t)
    (renderer : WebGLRenderer.t) (scene : Scene) (camera : PerspectiveCamera.t) :
  let scope' := scopeAfter scope renderer scene camera in
  let blending :=
    (if ShaderMaterial.transparent (Reflector.material scope) then 1 else 0)%nat in
  Reflector.visible scope = true ->
  PerspectiveCamera.id camera <> PerspectiveCamera.id (Reflector.camera scope) ->
  skipped scope camera = false ->
  skipped scope (Reflector.camera scope') = true ->
  exists listeners,
    Loop.onBeforeRenderIn (S (S depth)) scope renderer scene camera
    = (Loop.Returns,
       (WebGLRenderer.mk None (WebGLRenderer.xr_enabled renderer)
          (WebGLRenderer.shadowMap_autoUpdate renderer) (Some blending)
          ({[ WebGLRenderTarget.id (Reflector.renderTarget scope) ]}
           ∪ WebGLRenderer.renderTargets renderer)
          ({[ ShaderMaterial.id (Reflector.material scope) ]}
           ∪ WebGLRenderer.materials renderer)
          listeners
          (WebGLRenderer.calls renderer
           ++ [ WebGLRenderer.mkCall scene (Reflector.camera scope')
                  (Some (WebGLRenderTarget.id (Reflector.renderTarget scope)))
                  (WebGLRenderer.xr_enabled renderer)
                  (WebGLRenderer.shadowMap_autoUpdate renderer) (Some 0%nat) true;
                WebGLRenderer.mkCall scene camera None
                  (WebGLRenderer.xr_enabled renderer)
                  (WebGLRenderer.shadowMap_autoUpdate renderer) (Some blending)
                  false ]),
        Loop.beforeGuard scope' (Reflector.camera scope'))).
Proof.
  cbv zeta. intros Hv Hid Hs Hnested.
  rewrite (frame_by_halves scope renderer scene camera Hs) in *.
  rewrite set_visible_camera in *.
  rewrite onBeforeRenderIn_S, onBeforeRender_runs by exact Hs.
  rewrite <- (afterGuard_skipped scope camera) in Hnested.
  destruct (afterGuard_placement scope camera) as (_ & Hvisible & Htarget).
  cbv zeta in Hvisible, Htarget.
  assert (Hmaterial : Reflector.material
                        (Loop.afterGuard (Loop.beforeGuard scope camera) camera)
                      = Reflector.material scope) by reflexivity.
  assert (Hcamera : PerspectiveCamera.id
                      (Reflector.camera
                         (Loop.afterGuard (Loop.beforeGuard scope camera) camera))
                    = PerspectiveCamera.id (Reflector.camera scope)) by reflexivity.
  rewrite <- Hcamera in Hid. rewrite Hv in *.
  rewrite <- Htarget, <- Hmaterial.
  set (scope1 := Loop.afterGuard (Loop.beforeGuard scope camera) camera) in *.
  clearbody scope1.
  destruct (renders_when_nested_call_skips (Loop.onBeforeRenderIn (S depth))
              scope1 renderer scene camera) as (listeners & ->);
    [ intros r; now apply onBeforeRenderIn_skips | exact Hvisible | exact Hid | ].
  exists listeners. reflexivity.
Qed.

(** The renderer after a frame with its renders recorded only: no target
    bound, the flags and the materials as they were, blending off, and the
    mirror's render target among those set up. *)
Lemma rendererAfter_fields (scope : Reflector.t) (renderer : WebGLRenderer.t)
    (scene : Scene) (camera : PerspectiveCamera.t) :
  skipped scope camera = false ->
  exists listeners calls,
    rendererAfter scope renderer scene camera
    = WebGLRenderer.mk None (WebGLRenderer.xr_enabled renderer)
        (WebGLRenderer.shadowMap_autoUpdate renderer) (Some 0%nat)
        ({[ WebGLRenderTarget.id (Reflector.renderTarget scope) ]}
         ∪ WebGLRenderer.renderTargets renderer)
        (WebGLRenderer.materials renderer) listeners calls.
Proof.
  intros H. enter_frame H. renderer_steps_allocating setRenderTarget_allocates.
  eexists _, _. reflexivity.
Qed.

Section Ordinary.
Local Open Scope float_scope.

Variables (depth : nat) (scope : Reflector.t) (renderer : WebGLRenderer.t).
Variables (scene : Scene) (camera : PerspectiveCamera.t).

(** The frame with its renders recorded only, and the call of the hook by
    the renderer. *)
Let scope' : Reflector.t := scopeAfter scope renderer scene camera.
Let renderer' : WebGLRenderer.t := rendererAfter scope renderer scene camera.
Let out : Loop.result := Loop.onBeforeRenderIn (S (S depth)) scope renderer scene camera.

Hypothesis visible : Reflector.visible scope = true.
Hypothesis another :
  PerspectiveCamera.id camera <> PerspectiveCamera.id (Reflector.camera scope).
Hypothesis runs : skipped scope camera = false.
Hypothesis nested : skipped scope (Reflector.camera scope') = true.

(** X16: on an ordinary frame the call returns, and what it does to the renderer
    is what the frame with its renders recorded only does, but for the draw
    of the mirror by the offscreen render: the same offscreen render is
    issued first, the render from the real camera is issued second, into the
    canvas and with the mirror hidden, the renderer's target and flags are
    left as that frame leaves them, the same render target is set up, and the
    material of the mirror has been compiled. *)
Theorem frame_in_loop_renders :
  Loop.ends out = Loop.Returns
  /\ (exists call blending,
        offscreenCall scope renderer scene camera = Some call
        /\ WebGLRenderer.calls (Loop.renderer out)
           = WebGLRenderer.calls renderer
             ++ [ call;
                  WebGLRenderer.mkCall scene camera None
                    (WebGLRenderer.xr_enabled renderer)
                    (WebGLRenderer.shadowMap_autoUpdate renderer) blending false ])
  /\ WebGLRenderer.currentRenderTarget (Loop.renderer out)
     = WebGLRenderer.currentRenderTarget renderer'
  /\ WebGLRenderer.xr_enabled (Loop.renderer out) = WebGLRenderer.xr_enabled renderer'
  /\ WebGLRenderer.shadowMap_autoUpdate (Loop.renderer out)
     = WebGLRenderer.shadowMap_autoUpdate renderer'
  /\ WebGLRenderer.renderTargets (Loop.renderer out)
     = WebGLRenderer.renderTargets renderer'
  /\ ShaderMaterial.id (Reflector.material scope)
     ∈ WebGLRenderer.materials (Loop.renderer out).
Proof.
  destruct (loop_frame_when_nested_call_skips depth scope renderer scene camera
              visible another runs nested) as (listeners & Hout).
  unfold out, renderer'. rewrite Hout. clear Hout.
  rewrite (offscreenCall_by_halves scope renderer scene camera runs).
  destruct (rendererAfter_fields scope renderer scene camera runs)
    as (listeners' & calls' & ->).
  unfold Loop.ends, Loop.renderer.
  cbn [fst snd WebGLRenderer.calls WebGLRenderer.currentRenderTarget
       WebGLRenderer.xr_enabled WebGLRenderer.shadowMap_autoUpdate
       WebGLRenderer.renderTargets WebGLRenderer.materials].
  split; [ reflexivity | ].
  split.
  { eexists _, _. split; [ reflexivity | ].
    rewrite (frame_by_halves scope renderer scene camera runs), set_visible_camera.
    rewrite visible. reflexivity. }
  repeat split. set_solver.
Qed.

(** X17: on an ordinary frame the mirror is left as the frame with its renders
    recorded only leaves it, but for the scratch objects that the guard
    writes: the virtual camera, the texture matrix, the clip plane, [q] and
    the other products of the reflection are the same and the mirror is
    visible again, while [view] and [cameraWorldPosition] are those of the
    call made by the offscreen render, computed from the virtual camera. *)
Theorem frame_in_loop_mirror :
  Loop.scope out = Loop.beforeGuard scope' (Reflector.camera scope')
  /\ Reflector.camera (Loop.scope out) = Reflector.camera scope'
  /\ Reflector.visible (Loop.scope out) = true
  /\ Reflector.material (Loop.scope out) = Reflector.material scope'
  /\ Reflector.renderTarget (Loop.scope out) = Reflector.renderTarget scope'
  /\ Reflector.textureMatrix (Reflector.scratch (Loop.scope out))
     = Reflector.textureMatrix (Reflector.scratch scope')
  /\ Reflector.reflectorPlane (Reflector.scratch (Loop.scope out))
     = Reflector.reflectorPlane (Reflector.scratch scope')
  /\ Reflector.clipPlane (Reflector.scratch (Loop.scope out))
     = Reflector.clipPlane (Reflector.scratch scope')
  /\ Reflector.q (Reflector.scratch (Loop.scope out))
     = Reflector.q (Reflector.scratch scope')
  /\ Reflector.target (Reflector.scratch (Loop.scope out))
     = Reflector.target (Reflector.scratch scope')
  /\ Reflector.lookAtPosition (Reflector.scratch (Loop.scope out))
     = Reflector.lookAtPosition (Reflector.scratch scope')
  /\ Reflector.cameraWorldPosition (Reflector.scratch (Loop.scope out))
     = Matrix4.position (PerspectiveCamera.matrixWorld (Reflector.camera scope'))
  /\ Reflector.view (Reflector.scratch (Loop.scope out))
     = Vector3.subVectors (Matrix4.position (Reflector.matrixWorld scope))
         (Matrix4.position (PerspectiveCamera.matrixWorld (Reflector.camera scope'))).
Proof.
  destruct (loop_frame_when_nested_call_skips depth scope renderer scene camera
              visible another runs nested) as (listeners & Hout).
  unfold out. rewrite Hout. clear Hout. unfold Loop.scope. cbn [snd].
  fold scope'.
  assert (Hm : Reflector.matrixWorld scope' = Reflector.matrixWorld scope).
  { unfold scope'. rewrite (frame_by_halves scope renderer scene camera runs).
    reflexivity. }
  assert (Hv : Reflector.visible scope' = true).
  { unfold scope'. rewrite (frame_by_halves scope renderer scene camera runs).
    reflexivity. }
  clearbody scope'.
  cbn [Loop.beforeGuard Reflector.camera Reflector.visible Reflector.material
       Reflector.renderTarget Reflector.scratch Reflector.textureMatrix
       Reflector.reflectorPlane Reflector.clipPlane Reflector.q Reflector.target
       Reflector.lookAtPosition Reflector.cameraWorldPosition Reflector.view].
  rewrite Hm, Hv. repeat split.
Qed.
End Ordinary.

(** The renderer after the frame with its renders recorded only, in terms of
    the two halves of the hook. *)
Lemma rendererAfter_by_halves (scope : Reflector.t) (renderer : WebGLRenderer.t)
    (scene : Scene) (camera : PerspectiveCamera.t) :
  skipped scope camera = false ->
  rendererAfter scope renderer scene camera
  = let scope1 := Loop.afterGuard (Loop.beforeGuard scope camera) camera in
    let renderer :=
      WebGLRenderer.setRenderTarget renderer
        (Some (WebGLRenderTarget.id (Reflector.renderTarget scope))) in
    let renderer := WebGLRenderer.state_setBlending renderer 0 in
    let renderer :=
      WebGLRenderer.render renderer scene (Reflector.visible scope)
        (Reflector.camera scope1) in
    let renderer := WebGLRenderer.setRenderTarget renderer None in
    let currentRenderTarget := WebGLRenderer.getRenderTarget renderer in
    let currentXrEnabled := WebGLRenderer.xr_enabled renderer in
    let currentShadowAutoUpdate := WebGLRenderer.shadowMap_autoUpdate renderer in
    let renderer := WebGLRenderer.set_xr_enabled renderer false in
    let renderer := WebGLRenderer.set_shadowMap_autoUpdate renderer false in
    let renderer := WebGLRenderer.setRenderTarget renderer currentRenderTarget in
    let renderer := WebGLRenderer.set_xr_enabled renderer currentXrEnabled in
    let renderer :=
      WebGLRenderer.set_shadowMap_autoUpdate renderer currentShadowAutoUpdate in
    WebGLRenderer.render renderer scene false camera.
Proof.
  intros H. enter_frame H. reflexivity.
Qed.

(** X18: a hidden mirror is not entered again.  When the hook of a hidden mirror
    is called with a camera that is not the mirror's own, neither of its
    renders calls the hook back, and the call returns, at any depth of the
    call stack, the renderer and the mirror of the frame with its renders
    recorded only. *)
Theorem hidden_mirror_frame_alone (depth : nat) (scope : Reflector.t)
    (renderer : WebGLRenderer.t) (scene : Scene) (camera : PerspectiveCamera.t) :
  Reflector.visible scope = false ->
  PerspectiveCamera.id camera <> PerspectiveCamera.id (Reflector.camera scope) ->
  Loop.onBeforeRenderIn (S depth) scope renderer scene camera
  = (Loop.Returns, Reflector.onBeforeRender scope renderer scene camera).
Proof.
  intros Hv Hid. rewrite onBeforeRenderIn_S.
  destruct (skipped scope camera) eqn:Hs.
  - rewrite onBeforeRender_skips by exact Hs.
    rewrite skipped_frame_by_halves by exact Hs. reflexivity.
  - rewrite (surjective_pairing (Reflector.onBeforeRender scope renderer scene camera)).
    change (Reflector.onBeforeRender scope renderer scene camera).1
      with (rendererAfter scope renderer scene camera).
    change (Reflector.onBeforeRender scope renderer scene camera).2
      with (scopeAfter scope renderer scene camera).
    rewrite rendererAfter_by_halves, frame_by_halves, onBeforeRender_runs by exact Hs.
    destruct (afterGuard_placement scope camera) as (_ & Hvisible & Htarget).
    cbv zeta in Hvisible, Htarget. rewrite Hv in Hvisible.
    rewrite ?Hv, <- ?Htarget. clear Htarget.
    assert (Hcamera : PerspectiveCamera.id
                        (Reflector.camera
                           (Loop.afterGuard (Loop.beforeGuard scope camera) camera))
                      = PerspectiveCamera.id (Reflector.camera scope)) by reflexivity.
    rewrite <- Hcamera in Hid. cbv zeta.
    set (scope1 := Loop.afterGuard (Loop.beforeGuard scope camera) camera) in *.
    clearbody scope1. rename Hvisible into Hv1.
    unfold Loop.renders, Loop.render. cbv zeta. rewrite Hv1.
    cbn [Loop.set_visible Reflector.visible].
    unfold Loop.current. cbn [Loop.set_visible Reflector.camera].
    apply Nat.eqb_neq in Hid. rewrite Hid. reflexivity.
Qed.

(** ** The floor mirror inside the render loop *)

(** The frame of the floor mirror is an ordinary one: the call made by the
    offscreen render, with the virtual camera under the floor, returns at
    its guard. *)
Lemma scenario_nested_call_skipped :
  skipped Scenario.mirror
    (Reflector.camera
       (scopeAfter Scenario.mirror Scenario.renderer Scenario.scene Scenario.camera))
  = true.
Proof. vm_compute. reflexivity. Qed.

Lemma scenario_camera_is_another :
  PerspectiveCamera.id Scenario.camera
  <> PerspectiveCamera.id (Reflector.camera Scenario.mirror).
Proof. vm_compute. discriminate. Qed.

(** X16 on the floor mirror. *)
Lemma frame_in_loop_renders_floor :
  let scope := Scenario.mirror in
  let renderer := Scenario.renderer in
  let scene := Scenario.scene in
  let camera := Scenario.camera in
  let renderer' := rendererAfter scope renderer scene camera in
  let out := Loop.onBeforeRenderIn 2 scope renderer scene camera in
  (Reflector.visible scope = true
   /\ PerspectiveCamera.id camera <> PerspectiveCamera.id (Reflector.camera scope)
   /\ skipped scope camera = false
   /\ skipped scope (Reflector.camera (scopeAfter scope renderer scene camera)) = true)
  /\ Loop.ends out = Loop.Returns
  /\ (exists call blending,
        offscreenCall scope renderer scene camera = Some call
        /\ WebGLRenderer.calls (Loop.renderer out)
           = WebGLRenderer.calls renderer
             ++ [ call;
                  WebGLRenderer.mkCall scene camera None
                    (WebGLRenderer.xr_enabled renderer)
                    (WebGLRenderer.shadowMap_autoUpdate renderer) blending false ])
  /\ WebGLRenderer.currentRenderTarget (Loop.renderer out)
     = WebGLRenderer.currentRenderTarget renderer'
  /\ WebGLRenderer.xr_enabled (Loop.renderer out) = WebGLRenderer.xr_enabled renderer'
  /\ WebGLRenderer.shadowMap_autoUpdate (Loop.renderer out)
     = WebGLRenderer.shadowMap_autoUpdate renderer'
  /\ WebGLRenderer.renderTargets (Loop.renderer out)
     = WebGLRenderer.renderTargets renderer'
  /\ ShaderMaterial.id (Reflector.material scope)
     ∈ WebGLRenderer.materials (Loop.renderer out).
Proof.
  cbv zeta.
  split;
    [ split; [ reflexivity | ];
      split; [ exact scenario_camera_is_another | ];
      split; [ exact scenario_not_skipped | exact scenario_nested_call_skipped ]
    | ].
  exact (frame_in_loop_renders 0 Scenario.mirror Scenario.renderer Scenario.scene
           Scenario.camera eq_refl scenario_camera_is_another scenario_not_skipped
           scenario_nested_call_skipped).
Defined.

(** X17 on the floor mirror. *)
Lemma frame_in_loop_mirror_floor :
  let scope := Scenario.mirror in
  let renderer := Scenario.renderer in
  let scene := Scenario.scene in
  let camera := Scenario.camera in
  let scope' := scopeAfter scope renderer scene camera in
  let out := Loop.onBeforeRenderIn 2 scope renderer scene camera in
  (Reflector.visible scope = true
   /\ PerspectiveCamera.id camera <> PerspectiveCamera.id (Reflector.camera scope)
   /\ skipped scope camera = false
   /\ skipped scope (Reflector.camera scope') = true)
  /\ Loop.scope out = Loop.beforeGuard scope' (Reflector.camera scope')
  /\ Reflector.camera (Loop.scope out) = Reflector.camera scope'
  /\ Reflector.visible (Loop.scope out) = true
  /\ Reflector.material (Loop.scope out) = Reflector.material scope'
  /\ Reflector.renderTarget (Loop.scope out) = Reflector.renderTarget scope'
  /\ Reflector.textureMatrix (Reflector.scratch (Loop.scope out))
     = Reflector.textureMatrix (Reflector.scratch scope')
  /\ Reflector.reflectorPlane (Reflector.scratch (Loop.scope out))
     = Reflector.reflectorPlane (Reflector.scratch scope')
  /\ Reflector.clipPlane (Reflector.scratch (Loop.scope out))
     = Reflector.clipPlane (Reflector.scratch scope')
  /\ Reflector.q (Reflector.scratch (Loop.scope out))
     = Reflector.q (Reflector.scratch scope')
  /\ Reflector.target (Reflector.scratch (Loop.scope out))
     = Reflector.target (Reflector.scratch scope')
  /\ Reflector.lookAtPosition (Reflector.scratch (Loop.scope out))
     = Reflector.lookAtPosition (Reflector.scratch scope')
  /\ Reflector.cameraWorldPosition (Reflector.scratch (Loop.scope out))
     = Matrix4.position (PerspectiveCamera.matrixWorld (Reflector.camera scope'))
  /\ Reflector.view (Reflector.scratch (Loop.scope out))
     = Vector3.subVectors (Matrix4.position (Reflector.matrixWorld scope))
         (Matrix4.position (PerspectiveCamera.matrixWorld (Reflector.camera scope'))).
Proof.
  cbv zeta.
  split;
    [ split; [ reflexivity | ];
      split; [ exact scenario_camera_is_another | ];
      split; [ exact scenario_not_skipped | exact scenario_nested_call_skipped ]
    | ].
  exact (frame_in_loop_mirror 0 Scenario.mirror Scenario.renderer Scenario.scene
           Scenario.camera eq_refl scenario_camera_is_another scenario_not_skipped
           scenario_nested_call_skipped).
Defined.

(** The same in numbers: the call returns after two renders, the virtual
    camera stands at (0, -5, 10), and the scratch objects of the guard are
    left as the call made by the offscreen render wrote them, with the
    position of the virtual camera for that of the camera and [view]
    pointing from there to the surface. *)
Lemma floor_frame_in_loop :
  let out :=
    Loop.onBeforeRenderIn 2 Scenario.mirror Scenario.renderer Scenario.scene
      Scenario.camera in
  Loop.ends out = Loop.Returns
  /\ length (WebGLRenderer.calls (Loop.renderer out)) = 2%nat
  /\ PerspectiveCamera.position (Reflector.camera (Loop.scope out))
     = Vector3.mk 0 (-5) 10
  /\ Reflector.cameraWorldPosition (Reflector.scratch (Loop.scope out))
     = Vector3.mk 0 (-5) 10
  /\ Reflector.view (Reflector.scratch (Loop.scope out)) = Vector3.mk 0 5 (-10)
  /\ Reflector.view
       (Reflector.scratch
          (scopeAfter Scenario.mirror Scenario.renderer Scenario.scene
             Scenario.camera))
     = Vector3.mk 0 (-5) 10.
Proof. cbv zeta. repeat split; vm_compute; reflexivity. Qed.

(** With the camera in the plane of the floor mirror every call of the hook
    is followed by another: five calls deep, five offscreen renders have
    been issued and none has returned. *)
Lemma floor_frame_in_plane :
  let out :=
    Loop.onBeforeRenderIn 5 Scenario.mirror Scenario.renderer Scenario.scene
      Scenario.cameraInPlane in
  Loop.ends out = Loop.Throws
  /\ length (WebGLRenderer.calls (Loop.renderer out)) = 5%nat.
Proof. cbv zeta. split; vm_compute; reflexivity. Qed.

(** X18 on the floor mirror, hidden. *)
Lemma hidden_mirror_frame_alone_floor :
  let scope := Loop.set_visible Scenario.mirror false in
  (Reflector.visible scope = false
   /\ PerspectiveCamera.id Scenario.camera
      <> PerspectiveCamera.id (Reflector.camera scope))
  /\ Loop.onBeforeRenderIn 1 scope Scenario.renderer Scenario.scene Scenario.camera
     = (Loop.Returns,
        Reflector.onBeforeRender scope Scenario.renderer Scenario.scene
          Scenario.camera).
Proof.
  cbv zeta.
  split; [ split; [ reflexivity | exact scenario_camera_is_another ] | ].
  exact (hidden_mirror_frame_alone 0 (Loop.set_visible Scenario.mirror false)
           Scenario.renderer Scenario.scene Scenario.camera eq_refl
           scenario_camera_is_another).
Defined.

(** ** What the shader is handed after a frame *)

Section ShaderInputs.
Local Open Scope float_scope.

Variables (id geometry : nat) (virtualCamera : PerspectiveCamera.t).
Variables (renderTargetId materialId : nat) (options : Options.t).

End ShaderInputs.


(** ** What disposal leaves *)

Section DisposalRest.
Import EventDispatcher.

Implicit Types (r : WebGLRenderer.t) (id : nat).

(** An event leaves the flags, the bound target, the blending and the
    recorded renders alone. *)
Lemma dispatchEvent_state r id :
  let r' := WebGLRenderer.dispatchEvent r id in
  WebGLRenderer.currentRenderTarget r' = WebGLRenderer.currentRenderTarget r
  /\ WebGLRenderer.xr_enabled r' = WebGLRenderer.xr_enabled r
  /\ WebGLRenderer.shadowMap_autoUpdate r' = WebGLRenderer.shadowMap_autoUpdate r
  /\ WebGLRenderer.currentBlending r' = WebGLRenderer.currentBlending r
  /\ WebGLRenderer.calls r' = WebGLRenderer.calls r.
Proof.
  cbv zeta. unfold WebGLRenderer.dispatchEvent.
  destruct (WebGLRenderer.listeners r !! id) as [array | ] eqn:Hid; [ | done ].
  rewrite (call_listeners array r id Hid). done.
Qed.

(** An event on one object frees nothing of another. *)
Lemma dispatchEvent_other_resources r id id' :
  id' <> id ->
  (id' ∈ WebGLRenderer.renderTargets (WebGLRenderer.dispatchEvent r id)
   <-> id' ∈ WebGLRenderer.renderTargets r)
  /\ (id' ∈ WebGLRenderer.materials (WebGLRenderer.dispatchEvent r id)
      <-> id' ∈ WebGLRenderer.materials r).
Proof.
  intros Hne. unfold WebGLRenderer.dispatchEvent.
  destruct (WebGLRenderer.listeners r !! id) as [array | ] eqn:Hid; [ | done ].
  rewrite (call_listeners array r id Hid). cbn.
  split; case_decide; set_solver.
Qed.

(** X10: [dispose] touches nothing but the mirror's own target and material:
    the bound render target (the mirror's own included: it is not unbound),
    the flags, the blending and the recorded renders stay, and for every other
    object the renderer holds the same resources and the same listeners. *)
Theorem dispose_leaves_the_rest (scope : Reflector.t) (renderer : WebGLRenderer.t) :
  let released := Reflector.dispose scope renderer in
  let target := WebGLRenderTarget.id (Reflector.renderTarget scope) in
  let material := ShaderMaterial.id (Reflector.material scope) in
  WebGLRenderer.currentRenderTarget released = WebGLRenderer.currentRenderTarget renderer
  /\ WebGLRenderer.xr_enabled released = WebGLRenderer.xr_enabled renderer
  /\ WebGLRenderer.shadowMap_autoUpdate released
     = WebGLRenderer.shadowMap_autoUpdate renderer
  /\ WebGLRenderer.currentBlending released = WebGLRenderer.currentBlending renderer
  /\ WebGLRenderer.calls released = WebGLRenderer.calls renderer
  /\ forall id, id <> target -> id <> material ->
       (id ∈ WebGLRenderer.renderTargets released
        <-> id ∈ WebGLRenderer.renderTargets renderer)
       /\ (id ∈ WebGLRenderer.materials released <-> id ∈ WebGLRenderer.materials renderer)
       /\ WebGLRenderer.listeners released !! id = WebGLRenderer.listeners renderer !! id.
Proof.
  cbv zeta. unfold Reflector.dispose, ShaderMaterial.dispose, WebGLRenderTarget.dispose.
  set (target := WebGLRenderTarget.id (Reflector.renderTarget scope)).
  set (material := ShaderMaterial.id (Reflector.material scope)).
  set (r1 := WebGLRenderer.dispatchEvent renderer target).
  destruct (dispatchEvent_state renderer target) as (Ht & Hx & Hs & Hb & Hc).
  destruct (dispatchEvent_state r1 material) as (Ht' & Hx' & Hs' & Hb' & Hc').
  fold r1 in Ht, Hx, Hs, Hb, Hc.
  repeat split; try congruence.
  - intros Hin.
    apply (dispatchEvent_other_resources r1 material id) in Hin; [ | assumption ].
    now apply (dispatchEvent_other_resources renderer target id) in Hin.
  - intros Hin.
    apply (dispatchEvent_other_resources r1 material id); [ assumption | ].
    now apply (dispatchEvent_other_resources renderer target id).
  - intros Hin.
    apply (dispatchEvent_other_resources r1 material id) in Hin; [ | assumption ].
    now apply (dispatchEvent_other_resources renderer target id) in Hin.
  - intros Hin.
    apply (dispatchEvent_other_resources r1 material id); [ assumption | ].
    now apply (dispatchEvent_other_resources renderer target id).
  - rewrite (dispatchEvent_other r1 material id) by assumption.
    now apply dispatchEvent_other.
Qed.

(** X11: [dispose] does not retire the mirror: a later frame that is not
    skipped binds the render target again, the renderer sets it up anew and
    holds resources for it until [dispose] is called once more. *)
Theorem frame_after_dispose_allocates_again (scope : Reflector.t)
    (renderer : WebGLRenderer.t) (scene : Scene) (camera : PerspectiveCamera.t) :
  WebGLRenderer.listening renderer ->
  skipped scope camera = false ->
  let target := WebGLRenderTarget.id (Reflector.renderTarget scope) in
  let released := Reflector.dispose scope renderer in
  let renderer' := rendererAfter scope released scene camera in
  (target ∉ WebGLRenderer.renderTargets released)
  /\ target ∈ WebGLRenderer.renderTargets renderer'
  /\ WebGLRenderer.listening renderer'
  /\ (target ∉ WebGLRenderer.renderTargets (Reflector.dispose scope renderer')).
Proof.
  intros Hr H. cbv zeta.
  assert (Hrelease : forall r, WebGLRenderer.listening r ->
            WebGLRenderTarget.id (Reflector.renderTarget scope)
              ∉ WebGLRenderer.renderTargets (Reflector.dispose scope r)).
  { intros r Hl.
    unfold Reflector.dispose, ShaderMaterial.dispose, WebGLRenderTarget.dispose.
    destruct (dispatchEvent_releases r
                (WebGLRenderTarget.id (Reflector.renderTarget scope)) Hl) as [Ht _].
    destruct (dispatchEvent_shrinks
                (WebGLRenderer.dispatchEvent r
                   (WebGLRenderTarget.id (Reflector.renderTarget scope)))
                (ShaderMaterial.id (Reflector.material scope))) as [Hts _].
    intros Hheld. apply Ht, Hts, Hheld. }
  assert (Hreleased : WebGLRenderer.listening (Reflector.dispose scope renderer)).
  { unfold Reflector.dispose, ShaderMaterial.dispose, WebGLRenderTarget.dispose.
    now apply listening_dispatchEvent, listening_dispatchEvent. }
  split; [ now apply Hrelease | ].
  split; [ rewrite (frame_allocates _ _ _ _ H); set_solver | ].
  split; [ now apply listening_frame | ].
  apply Hrelease. now apply listening_frame.
Qed.
End DisposalRest.

(** X11 on the floor mirror. *)
Lemma frame_after_dispose_allocates_again_floor :
  WebGLRenderer.listening Scenario.renderer
  /\ skipped Scenario.mirror Scenario.camera = false
  /\ 12%nat ∈ WebGLRenderer.renderTargets
               (rendererAfter Scenario.mirror
                  (Reflector.dispose Scenario.mirror Scenario.renderer)
                  Scenario.scene Scenario.camera).
Proof.
  split; [ exact scenario_listening | ]. split; [ exact scenario_not_skipped | ].
  apply (frame_after_dispose_allocates_again Scenario.mirror Scenario.renderer
           Scenario.scene Scenario.camera scenario_listening scenario_not_skipped).
Defined.
